(** * Humanitarian deliveries dashboard ([log.py])

    The script loads one table from the store, narrows it by three sidebar
    selections and derives metrics, grouped views, an exception table and a
    CSV export from the narrowed table.  The development below embeds those
    computations as functions on lists of rows, with the pandas, Streamlit
    and Python operations the script calls written out at the level of the
    values they take and return.

    Outside the embedding: the connection to the store and the two caches
    ([get_session], the decorators), and the drawing of the charts, which
    the plotting library does from the tables computed here. *)

From Stdlib Require Import ZArith List String Ascii Bool Lia.
From Stdlib Require Import Sorted Permutation OrderedTypeEx DecimalString Floats Uint63.
Import ListNotations.

Local Open Scope Z_scope.
Local Open Scope list_scope.

(** ** Cells

    A text cell holds a Python [str] or [None]; a numeric cell is a float64
    whose NaN stands for a missing value; a date cell is a [datetime64[ns]]
    value, the nanoseconds since the epoch, or [NaT]. *)

Definition text := option string.
Definition number := float.
Definition datetime := option Z.

(** Keys that pandas can sort and group on. *)
Class Key (K : Type) := {
  kcmp : K -> K -> comparison;
  kcmp_eq : forall a b, kcmp a b = Eq -> a = b;
  kcmp_refl : forall a, kcmp a a = Eq;
  kcmp_antisym : forall a b, kcmp a b = CompOpp (kcmp b a);
  kcmp_trans : forall a b c, kcmp a b = Lt -> kcmp b c = Lt -> kcmp a c = Lt
}.

Definition klt {K} `{Key K} (a b : K) : Prop := kcmp a b = Lt.
Definition keqb {K} `{Key K} (a b : K) : bool :=
  match kcmp a b with Eq => true | _ => false end.

(** ** pandas *)
Module pd.

(** [Series == value] on an object column: a missing cell, or a missing
    right-hand side, compares unequal. *)
Definition eq (cell value : text) : bool :=
  match cell, value with
  | Some a, Some b => String.eqb a b
  | _, _ => false
  end.

(** [Series != value]: the negation, cell by cell, so a missing cell
    differs from every value. *)
Definition ne (cell value : text) : bool := negb (eq cell value).

(** Identity of two cells as hashed by [unique] and [isin]: [None]
    matches [None]. *)
Definition same (a b : text) : bool :=
  match a, b with
  | Some x, Some y => String.eqb x y
  | None, None => true
  | _, _ => false
  end.

(** [Series.isin(values)] for one cell. *)
Definition isin (cell : text) (values : list text) : bool :=
  existsb (same cell) values.

(** [Series.unique()]: distinct cells in order of first appearance,
    a missing cell included; [same] tells two cells apart. *)
Fixpoint unique {A} (same : A -> A -> bool) (cells : list A) : list A :=
  match cells with
  | [] => []
  | c :: rest => c :: filter (fun d => negb (same c d)) (unique same rest)
  end.

(** [Series.dropna()]. *)
Fixpoint dropna {A} (cells : list (option A)) : list A :=
  match cells with
  | [] => []
  | Some a :: rest => a :: dropna rest
  | None :: rest => dropna rest
  end.

(** [Series < value] on a float64 column; NaN is below nothing. *)
Definition lt (cell value : number) : bool := PrimFloat.ltb cell value.

(** One more row under key [k] in a table of group sizes kept in
    ascending key order. *)
Fixpoint bump {K} `{Key K} (k : K) (g : list (K * nat)) : list (K * nat) :=
  match g with
  | [] => [(k, 1%nat)]
  | (k', n) :: g' =>
      match kcmp k k' with
      | Lt => (k, 1%nat) :: g
      | Eq => (k', S n) :: g'
      | Gt => (k', n) :: bump k g'
      end
  end.

(** [groupby(keys).size().reset_index(...)]: one line per observed key,
    keys ascending ([sort=True]); a row with a missing key belongs to no
    group ([dropna=True]). *)
Definition groupby_size {K} `{Key K} (keys : list (option K)) : list (K * nat) :=
  fold_left (fun g k => match k with Some k => bump k g | None => g end) keys [].

(** [Series.sum()]: NaN cells are skipped, the empty sum is 0.  The cells
    are added from left to right; numpy adds long columns pairwise, which
    can change the last bits of the sum and changes nothing stated below. *)
Definition sum (cells : list number) : number :=
  fold_left (fun acc x => if PrimFloat.is_nan x then acc else (acc + x)%float)
            cells 0%float.

(** The number of cells that are not NaN. *)
Definition count (cells : list number) : nat :=
  List.length (filter (fun x => negb (PrimFloat.is_nan x)) cells).

(** [Series.mean()]: the sum over the count of the non-NaN cells, NaN when
    there is none. *)
Definition mean (cells : list number) : number :=
  let n := count cells in
  if (0 <? n)%nat
  then (sum cells / PrimFloat.of_uint63 (Uint63.of_Z (Z.of_nat n)))%float
  else PrimFloat.nan.

(** [groupby(key)[column].mean().reset_index()]: the groups of
    [groupby_size], each with the mean of its rows' values. *)
Definition groupby_mean {K} `{Key K} (rows : list (option K * number))
  : list (K * number) :=
  map (fun g : K * nat =>
         (fst g,
          mean (map snd
                  (filter (fun kv : option K * number =>
                             match fst kv with
                             | Some k => keqb k (fst g)
                             | None => false
                             end) rows))))
      (groupby_size (map fst rows)).

(** Position of a count in a list kept by descending count; a count goes
    behind the equal ones already there. *)
Fixpoint place (kn : text * nat) (l : list (text * nat)) : list (text * nat) :=
  match l with
  | [] => [kn]
  | kn' :: l' =>
      if (snd kn' <? snd kn)%nat then kn :: l else kn' :: place kn l'
  end.

(** [Series.value_counts().reset_index()]: the distinct non-missing values
    with their number of rows, largest count first; equal counts are kept
    here in order of first appearance (pandas does not fix their order). *)
Definition value_counts (cells : list text) : list (text * nat) :=
  fold_left (fun l kn => place kn l)
    (map (fun v => (v, List.length (filter (same v) cells)))
         (filter (fun v => match v with Some _ => true | None => false end)
                 (unique same cells)))
    [].

End pd.

(** ** Python built-ins *)
Module py.

Inductive exn :=
| KeyError (key : string)
| ValueError
| OverflowError.

Inductive result (A : Type) :=
| Ok (a : A)
| Raise (e : exn).
Arguments Ok {A} a.
Arguments Raise {A} e.

Definition bind {A B} (m : result A) (k : A -> result B) : result B :=
  match m with
  | Ok a => k a
  | Raise e => Raise e
  end.

(** [sorted(values)] on strings: insertion by code-point order. *)
Fixpoint insert (s : string) (l : list string) : list string :=
  match l with
  | [] => [s]
  | t :: l' => if String.leb s t then s :: l else t :: insert s l'
  end.

Definition sorted (l : list string) : list string := fold_right insert [] l.

(** [len(frame)]. *)
Definition len {A} (l : list A) : nat := List.length l.

(** Decimal digits of a natural number. *)
Definition digits (n : Z) : string :=
  NilZero.string_of_uint (N.to_uint (Z.to_N n)).

Definition sign (negative : bool) : string :=
  if negative then "-"%string else EmptyString.

(** [n / d] rounded to the nearest integer, a tie going to the even one. *)
Definition round_half_even (n d : Z) : Z :=
  let q := n / d in
  match 2 * (n mod d) ?= d with
  | Lt => q
  | Gt => q + 1
  | Eq => if Z.even q then q else q + 1
  end.

(** Ten times the magnitude [m * 2^e], rounded to an integer. *)
Definition tenths (m : positive) (e : Z) : Z :=
  if 0 <=? e then Z.pos m * 2 ^ e * 10
  else round_half_even (Z.pos m * 10) (2 ^ (- e)).

(** [f"{x:.1f}"]: one digit after the point, correctly rounded. *)
Definition format_1f (x : float) : string :=
  match Prim2SF x with
  | S754_nan => "nan"
  | S754_infinity s => sign s ++ "inf"
  | S754_zero s => sign s ++ "0.0"
  | S754_finite s m e =>
      let t := tenths m e in
      sign s ++ digits (t / 10) ++ "." ++ digits (t mod 10)
  end%string.

(** [int(x)] on a float: truncation toward zero; NaN and the infinities
    raise. *)
Definition int (x : float) : result Z :=
  match Prim2SF x with
  | S754_nan => Raise ValueError
  | S754_infinity _ => Raise OverflowError
  | S754_zero _ => Ok 0
  | S754_finite s m e =>
      let a := if 0 <=? e then Z.pos m * 2 ^ e else Z.pos m / 2 ^ (- e) in
      Ok (if s then - a else a)
  end.

End py.

(** ** Streamlit widgets

    A widget returns its default until the user has touched it; from then
    on the session keeps the user's pick, given here by position in the
    option list. *)
Module st.

(** [st.selectbox(label, options)]: the first option by default, [None]
    when there is no option. *)
Definition selectbox {A} (options : list A) (pick : option nat) : option A :=
  match pick with
  | None => hd_error options
  | Some i => nth_error options i
  end.

(** [st.multiselect(label, options, default=...)]. *)
Definition multiselect {A} (options default : list A) (pick : option (list nat))
  : list A :=
  match pick with
  | None => default
  | Some picks =>
      flat_map (fun i => match nth_error options i with
                         | Some a => [a]
                         | None => []
                         end) picks
  end.

End st.

(** ** Orders on the grouping keys: strings by code point, dates by
    instant, pairs of keys lexicographically. *)

#[export] Instance string_Key : Key string.
Proof.
  refine {| kcmp := String.compare |}.
  - exact String.compare_eq_iff.
  - intro a. apply String_as_OT.cmp_eq. reflexivity.
  - exact String.compare_antisym.
  - intros a b c Hab Hbc. apply String_as_OT.cmp_lt.
    apply String_as_OT.lt_trans with b; apply String_as_OT.cmp_lt; assumption.
Defined.

#[export] Instance Z_Key : Key Z.
Proof.
  refine {| kcmp := Z.compare |}.
  - intros a b. apply Z.compare_eq.
  - exact Z.compare_refl.
  - intros a b. apply Z.compare_antisym.
  - intros a b c. rewrite !Z.compare_lt_iff. apply Z.lt_trans.
Defined.

Definition pair_cmp {A B} `{Key A} `{Key B} (x y : A * B) : comparison :=
  match kcmp (fst x) (fst y) with
  | Eq => kcmp (snd x) (snd y)
  | c => c
  end.

#[export] Instance pair_Key {A B} `{Key A} `{Key B} : Key (A * B).
Proof.
  refine {| kcmp := pair_cmp |}; unfold pair_cmp.
  - intros [a1 b1] [a2 b2]; simpl.
    destruct (kcmp a1 a2) eqn:Ea; try discriminate.
    intro Eb. apply kcmp_eq in Ea. apply kcmp_eq in Eb. congruence.
  - intros [a b]; simpl. rewrite !kcmp_refl. reflexivity.
  - intros [a1 b1] [a2 b2]; simpl.
    rewrite (kcmp_antisym a1 a2).
    destruct (kcmp a2 a1); simpl; auto. apply kcmp_antisym.
  - intros [a1 b1] [a2 b2] [a3 b3]; simpl.
    destruct (kcmp a1 a2) eqn:E12; try discriminate;
      destruct (kcmp a2 a3) eqn:E23; try discriminate; intros H1 H2.
    + apply kcmp_eq in E12. apply kcmp_eq in E23. subst.
      rewrite kcmp_refl. eapply kcmp_trans; eassumption.
    + apply kcmp_eq in E12. subst. rewrite E23. reflexivity.
    + apply kcmp_eq in E23. subst. rewrite E12. reflexivity.
    + rewrite (kcmp_trans _ _ _ E12 E23). reflexivity.
Defined.

(** ** The delivery record *)

(** Modelled from the spec: the types of the columns.  The table's schema
    is kept in the store and not in the repository; section 3 of the
    specification names the attributes.  Labels, names and identifiers are
    text cells, the two dates are date cells, counts, percentages, tonnes
    and hours are numeric cells.  The fields follow the order of the
    query's projection. *)
Module col.
Record t := mk {
  branch : text;
  route : text;
  delivery_id : text;
  arrival_date : datetime;
  beneficiaries_count : number;
  capacity_utilisation : number;
  cargo_subtype : text;
  cargo_type : text;
  created_date : datetime;
  day_of_week : text;
  distribution_center : text;
  driver_name : text;
  region : text;
  released_tonnes : number;
  requested_tonnes : number;
  return_percentage : number;
  status : text;
  urgency_level : text;
  vehicle : text;
  vehicle_load_tonnes : number;
  warehouse_release_time_hours : number;
  week_range : text
}.
End col.

Definition Row : Type := col.t.

(** The column names of the query, in the order of its [SELECT]. *)
Definition projection : list string :=
  [ "branch"; "route"; "delivery_id"; "arrival_date"; "beneficiaries_count";
    "capacity_utilisation"; "cargo_subtype"; "cargo_type"; "created_date";
    "day_of_week"; "distribution_center"; "driver_name"; "region";
    "released_tonnes"; "requested_tonnes"; "return_percentage";
    "status"; "urgency_level"; "vehicle"; "vehicle_load_tonnes";
    "warehouse_release_time_hours"; "week_range" ]%string.

(** A frame: its column labels and its rows. *)
Record DataFrame := {
  columns : list string;
  rows : list Row
}.

(** [load_data]: [pd.DataFrame(rows)] names the columns after the fields of
    the first row it is given, so an empty result set makes a frame without
    columns.  The two date columns are converted when present (lines 34-37);
    the conversion, and its failure on a stored value that is no date, are
    not part of this embedding: the cells are held here as the frame holds
    them after a conversion that succeeded. *)
Definition load_data (result_set : list Row) : DataFrame :=
  match result_set with
  | [] => {| columns := []; rows := [] |}
  | _ => {| columns := projection; rows := result_set |}
  end.

(** [df[name]]: the rows when the frame has the column, [KeyError]
    otherwise. *)
Definition getitem (df : DataFrame) (name : string) : py.result (list Row) :=
  if existsb (String.eqb name) (columns df)
  then py.Ok (rows df)
  else py.Raise (py.KeyError name).

(** ** The sidebar (lines 48-63) *)

(** What the session holds of the three widgets. *)
Record Session := {
  region_pick : option nat;
  status_pick : option (list nat);
  week_pick : option nat
}.

Definition first_run : Session :=
  {| region_pick := None; status_pick := None; week_pick := None |}.

Definition regions (df : list Row) : list string :=
  pd.unique String.eqb (pd.dropna (map col.region df)).

Definition selected_region (df : list Row) (s : Session) : text :=
  st.selectbox (regions df) (region_pick s).

Definition status_options (df : list Row) : list text :=
  pd.unique pd.same (map col.status df).

Definition status (df : list Row) (s : Session) : list text :=
  st.multiselect (status_options df) (status_options df) (status_pick s).

Definition weeks (df : list Row) : list string :=
  py.sorted (pd.unique String.eqb (pd.dropna (map col.week_range df))).

Definition selected_week (df : list Row) (s : Session) : text :=
  st.selectbox (weeks df) (week_pick s).

(** ** The filter (lines 65-69) *)

Definition keep (selected_region : text) (status : list text)
    (selected_week : text) (r : Row) : bool :=
  pd.eq (col.region r) selected_region
  && pd.isin (col.status r) status
  && pd.eq (col.week_range r) selected_week.

Definition filtered (df : list Row) (selected_region : text)
    (status : list text) (selected_week : text) : list Row :=
  filter (keep selected_region status selected_week) df.

(** ** Key metrics (lines 74-78) *)

Definition deliveries (filtered : list Row) : nat := py.len filtered.

Definition total_beneficiaries (filtered : list Row) : py.result Z :=
  py.int (pd.sum (map col.beneficiaries_count filtered)).

Definition avg_capacity_utilisation (filtered : list Row) : string :=
  (py.format_1f (pd.mean (map col.capacity_utilisation filtered)) ++ "%")%string.

Definition avg_return (filtered : list Row) : string :=
  (py.format_1f (pd.mean (map col.return_percentage filtered)) ++ "%")%string.

(** ** Grouped views (lines 83-173) *)

(** Two grouping columns: a row with either key missing is left out. *)
Definition both {A B} (a : option A) (b : option B) : option (A * B) :=
  match a, b with
  | Some x, Some y => Some (x, y)
  | _, _ => None
  end.

Definition trips_df (filtered : list Row) : list (string * nat) :=
  pd.groupby_size (map col.branch filtered).

Definition status_branch_df (filtered : list Row) : list (string * string * nat) :=
  pd.groupby_size (map (fun r => both (col.branch r) (col.status r)) filtered).

(** The time series is computed only under [if not filtered.empty]. *)
Definition time_df (filtered : list Row) : option (list (Z * nat)) :=
  match filtered with
  | [] => None
  | _ => Some (pd.groupby_size (map col.arrival_date filtered))
  end.

Definition week_df (filtered : list Row) : list (string * nat) :=
  pd.groupby_size (map col.week_range filtered).

Definition capacity_branch_df (filtered : list Row) : list (string * number) :=
  pd.groupby_mean
    (map (fun r => (col.branch r, col.capacity_utilisation r)) filtered).

Definition vehicle_df (filtered : list Row) : list (text * nat) :=
  pd.value_counts (map col.vehicle filtered).

Definition urgency_df (filtered : list Row) : list (text * nat) :=
  pd.value_counts (map col.urgency_level filtered).

Definition cargo_df (filtered : list Row) : list (string * string * nat) :=
  pd.groupby_size (map (fun r => both (col.cargo_type r) (col.region r)) filtered).

Definition cargo_branch_df (filtered : list Row) : list (string * string * nat) :=
  pd.groupby_size (map (fun r => both (col.branch r) (col.cargo_type r)) filtered).

Definition subcargo_df (filtered : list Row) : list (string * string * nat) :=
  pd.groupby_size (map (fun r => both (col.branch r) (col.cargo_subtype r)) filtered).

(** ** The exception table (line 180) *)

Definition low_capacity (filtered : list Row) : list Row :=
  filter (fun r => pd.lt (col.capacity_utilisation r) 50%float
                   || pd.ne (col.status r) (Some "Delivered"%string))
         filtered.

(** ** Python's [csv] module, as [to_csv] drives it

    The dialect is the default one: comma, double quote, quotes doubled
    inside a quoted field, minimal quoting, records ended by a line feed. *)
Module csv.

Definition comma : ascii := ","%char.
Definition dquote : ascii := ascii_of_nat 34.
Definition LF : ascii := ascii_of_nat 10.
Definition CR : ascii := ascii_of_nat 13.

(** The writer quotes a field that holds the delimiter, the quote character
    or a character of the line terminator.  (From Python 3.13 on a carriage
    return is quoted as well; the two rules agree on every field without a
    carriage return.) *)
Definition special (c : ascii) : bool :=
  Ascii.eqb c comma || Ascii.eqb c dquote || Ascii.eqb c LF.

Fixpoint escape (s : list ascii) : list ascii :=
  match s with
  | [] => []
  | c :: s' =>
      if Ascii.eqb c dquote then dquote :: dquote :: escape s'
      else c :: escape s'
  end.

Definition field (s : list ascii) : list ascii :=
  if existsb special s then dquote :: escape s ++ [dquote] else s.

Fixpoint join (fields : list (list ascii)) : list ascii :=
  match fields with
  | [] => []
  | [f] => f
  | f :: fs => f ++ comma :: join fs
  end.

(** [writer.writerow]: a record made of one empty field is written as a
    pair of quotes. *)
Definition writerow (fields : list (list ascii)) : list ascii :=
  match fields with
  | [ [] ] => [dquote; dquote; LF]
  | _ => join (map field fields) ++ [LF]
  end.

Definition writerows (records : list (list (list ascii))) : list ascii :=
  flat_map writerow records.

(** The reader's automaton ([csv.reader] over a text opened with
    [newline=''], not strict). *)
Inductive state :=
| StartRecord
| StartField
| InField
| InQuoted
| QuoteInQuoted
| EatCRNL
| Failed.

Record reader := {
  st : state;
  fld : list ascii;
  rec : list (list ascii);
  done : list (list (list ascii))
}.

Definition start : reader :=
  {| st := StartRecord; fld := []; rec := []; done := [] |}.

Definition goto (s : state) (r : reader) : reader :=
  {| st := s; fld := fld r; rec := rec r; done := done r |}.

Definition add_char (c : ascii) (r : reader) : reader :=
  {| st := st r; fld := fld r ++ [c]; rec := rec r; done := done r |}.

Definition save_field (r : reader) : reader :=
  {| st := st r; fld := []; rec := rec r ++ [fld r]; done := done r |}.

Definition emit (r : reader) : reader :=
  {| st := StartRecord; fld := []; rec := []; done := done r ++ [rec r] |}.

Definition newline (c : ascii) : bool := Ascii.eqb c LF || Ascii.eqb c CR.

Definition start_field (r : reader) (c : ascii) : reader :=
  if newline c then goto EatCRNL (save_field r)
  else if Ascii.eqb c dquote then goto InQuoted r
  else if Ascii.eqb c comma then goto StartField (save_field r)
  else goto InField (add_char c r).

(** One character. *)
Definition step (r : reader) (c : ascii) : reader :=
  match st r with
  | StartRecord =>
      if newline c then goto EatCRNL r else start_field r c
  | StartField => start_field r c
  | InField =>
      if newline c then goto EatCRNL (save_field r)
      else if Ascii.eqb c comma then goto StartField (save_field r)
      else add_char c r
  | InQuoted =>
      if Ascii.eqb c dquote then goto QuoteInQuoted r else add_char c r
  | QuoteInQuoted =>
      if Ascii.eqb c dquote then goto InQuoted (add_char c r)
      else if Ascii.eqb c comma then goto StartField (save_field r)
      else if newline c then goto EatCRNL (save_field r)
      else goto InField (add_char c r)
  | EatCRNL => if newline c then r else goto Failed r
  | Failed => r
  end.

(** The end of a line of the input. *)
Definition eol (r : reader) : reader :=
  match st r with
  | StartRecord => emit r
  | StartField => emit (save_field r)
  | InField => emit (save_field r)
  | InQuoted => r
  | QuoteInQuoted => emit (save_field r)
  | EatCRNL => emit r
  | Failed => r
  end.

(** Where the input stands in its current line: nothing read of it yet,
    some characters read, or a carriage return read last (the line ends
    there unless a line feed follows). *)
Inductive line := Fresh | Open | AfterCR.

Fixpoint feed (r : reader) (l : line) (s : list ascii) : reader :=
  match s with
  | [] =>
      match l with
      | Fresh => r
      | _ => eol r
      end
  | c :: s' =>
      if Ascii.eqb c LF then feed (eol (step r c)) Fresh s'
      else
        let r' := match l with AfterCR => eol r | _ => r end in
        feed (step r' c) (if Ascii.eqb c CR then AfterCR else Open) s'
  end.

(** The records of a text; a field left open at the end of the input is
    closed there. *)
Definition read (s : list ascii) : option (list (list (list ascii))) :=
  let r := feed start Fresh s in
  match st r with
  | Failed => None
  | InQuoted => Some (done (emit (save_field r)))
  | _ => Some (done r)
  end.

End csv.

(** ** What one run of the script puts on the page *)
Module page.
Record t := mk {
  deliveries : nat;
  total_beneficiaries : Z;
  avg_capacity_utilisation : string;
  avg_return : string;
  trips_df : list (string * nat);
  status_branch_df : list (string * string * nat);
  time_df : option (list (Z * nat));
  week_df : list (string * nat);
  capacity_branch_df : list (string * number);
  vehicle_df : list (text * nat);
  vehicle_load_tonnes : list number;
  urgency_df : list (text * nat);
  cargo_df : list (string * string * nat);
  cargo_branch_df : list (string * string * nat);
  subcargo_df : list (string * string * nat);
  low_capacity : list Row;
  filtered : list Row;
  download : string * string * string
}.
End page.

(** ** The export (lines 189-194) *)

Section Download.

(** The text numpy gives a float64 that is not NaN, and the text pandas
    gives an instant, in a format it picks from the whole column. *)
Variable float_str : float -> string.
Variable date_str : list datetime -> Z -> string.

(** A missing cell is written as the empty text. *)
Definition text_cell (c : text) : string :=
  match c with
  | Some s => s
  | None => EmptyString
  end.

Definition number_cell (x : number) : string :=
  if PrimFloat.is_nan x then EmptyString else float_str x.

Definition date_cell (column : list datetime) (d : datetime) : string :=
  match d with
  | Some t => date_str column t
  | None => EmptyString
  end.

(** The cells of one row as [to_csv] hands them to the writer, in column
    order. *)
Definition cells (frame : list Row) (r : Row) : list string :=
  [ text_cell (col.branch r);
    text_cell (col.route r);
    text_cell (col.delivery_id r);
    date_cell (map col.arrival_date frame) (col.arrival_date r);
    number_cell (col.beneficiaries_count r);
    number_cell (col.capacity_utilisation r);
    text_cell (col.cargo_subtype r);
    text_cell (col.cargo_type r);
    date_cell (map col.created_date frame) (col.created_date r);
    text_cell (col.day_of_week r);
    text_cell (col.distribution_center r);
    text_cell (col.driver_name r);
    text_cell (col.region r);
    number_cell (col.released_tonnes r);
    number_cell (col.requested_tonnes r);
    number_cell (col.return_percentage r);
    text_cell (col.status r);
    text_cell (col.urgency_level r);
    text_cell (col.vehicle r);
    number_cell (col.vehicle_load_tonnes r);
    number_cell (col.warehouse_release_time_hours r);
    text_cell (col.week_range r) ].

(** [frame.to_csv(index=False)]: the header, then one record per row. *)
Definition to_csv (frame : list Row) : string :=
  string_of_list_ascii
    (csv.writerows
       (map (map list_ascii_of_string)
            (projection :: map (cells frame) frame))).

(** [st.download_button(label, data, file_name, mime)]. *)
Definition download_button (filtered : list Row) : string * string * string :=
  (to_csv filtered, "deliveries_filtered.csv"%string, "text/csv"%string).

(** ** The whole script

    One run: load, read the sidebar, filter, compute every view.  The
    first column access (line 49) is where a frame without columns raises;
    the charts are drawn by the plotting library from the tables computed
    here. *)
Definition dashboard (result_set : list Row) (s : Session) : py.result page.t :=
  let df := load_data result_set in
  py.bind (getitem df "region") (fun df =>
  let f := filtered df (selected_region df s) (status df s) (selected_week df s) in
  py.bind (total_beneficiaries f) (fun beneficiaries =>
  py.Ok
    {| page.deliveries := deliveries f;
       page.total_beneficiaries := beneficiaries;
       page.avg_capacity_utilisation := avg_capacity_utilisation f;
       page.avg_return := avg_return f;
       page.trips_df := trips_df f;
       page.status_branch_df := status_branch_df f;
       page.time_df := time_df f;
       page.week_df := week_df f;
       page.capacity_branch_df := capacity_branch_df f;
       page.vehicle_df := vehicle_df f;
       page.vehicle_load_tonnes := map col.vehicle_load_tonnes f;
       page.urgency_df := urgency_df f;
       page.cargo_df := cargo_df f;
       page.cargo_branch_df := cargo_branch_df f;
       page.subcargo_df := subcargo_df f;
       page.low_capacity := low_capacity f;
       page.filtered := f;
       page.download := download_button f |})).

End Download.

(** ** Reading the export back *)

Section Reparse.

(** The readers of the text of a float and of an instant, the inverses of
    the two printers of the export. *)
Variable float_parse : string -> option float.
Variable date_parse : string -> option Z.

(** An empty field is a missing cell. *)
Definition read_text (s : string) : text :=
  match s with
  | EmptyString => None
  | _ => Some s
  end.

Definition read_number (s : string) : option number :=
  match s with
  | EmptyString => Some PrimFloat.nan
  | _ => float_parse s
  end.

Definition read_date (s : string) : option datetime :=
  match s with
  | EmptyString => Some None
  | _ => option_map Some (date_parse s)
  end.

Definition obind {A B} (m : option A) (k : A -> option B) : option B :=
  match m with
  | Some a => k a
  | None => None
  end.

Definition read_row (fields : list string) : option Row :=
  match fields with
  | [ c1; c2; c3; c4; c5; c6; c7; c8; c9; c10; c11; c12; c13; c14; c15; c16;
      c17; c18; c19; c20; c21; c22 ] =>
      obind (read_date c4) (fun arrival =>
      obind (read_number c5) (fun beneficiaries =>
      obind (read_number c6) (fun capacity =>
      obind (read_date c9) (fun created =>
      obind (read_number c14) (fun released =>
      obind (read_number c15) (fun requested =>
      obind (read_number c16) (fun returned =>
      obind (read_number c20) (fun load =>
      obind (read_number c21) (fun hours =>
      Some (col.mk (read_text c1) (read_text c2) (read_text c3) arrival
                   beneficiaries capacity (read_text c7) (read_text c8) created
                   (read_text c10) (read_text c11) (read_text c12)
                   (read_text c13) released requested returned (read_text c17)
                   (read_text c18) (read_text c19) load hours
                   (read_text c22)))))))))))
  | _ => None
  end.

Fixpoint read_rows (records : list (list string)) : option (list Row) :=
  match records with
  | [] => Some []
  | fields :: rest =>
      obind (read_row fields) (fun r =>
      obind (read_rows rest) (fun rs => Some (r :: rs)))
  end.

(** Modelled from the spec: the reader of the export.  The repository has
    no code that parses the exported text; the specification states the
    round trip against such a parse (sections 4.6 and 8).  The records are
    those of [csv.read]; the first one is the header, and each other one is
    read cell by cell according to the type of its column. *)
Definition read_csv (s : string) : option DataFrame :=
  match csv.read (list_ascii_of_string s) with
  | Some (header :: records) =>
      obind (read_rows (map (map string_of_list_ascii) records)) (fun rs =>
      Some {| columns := map string_of_list_ascii header; rows := rs |})
  | _ => None
  end.

End Reparse.

(** ** Vocabulary of the statements *)

(** [l1] is [l2] with some elements left out, the order kept. *)
Inductive Subseq {A} : list A -> list A -> Prop :=
| Subseq_nil : Subseq [] []
| Subseq_skip : forall x l1 l2, Subseq l1 l2 -> Subseq l1 (x :: l2)
| Subseq_keep : forall x l1 l2, Subseq l1 l2 -> Subseq (x :: l1) (x :: l2).

(** The three predicates of the filter, on one row. *)
Definition selected (region : string) (statuses : list text) (week : string)
    (r : Row) : Prop :=
  col.region r = Some region /\ In (col.status r) statuses
  /\ col.week_range r = Some week.

(** The condition of the exception table, on one row. *)
Definition exceptional (r : Row) : Prop :=
  PrimFloat.ltb (col.capacity_utilisation r) 50%float = true
  \/ col.status r <> Some "Delivered"%string.

(** The number of keys equal to [k]. *)
Definition occurrences {K} `{Key K} (k : K) (keys : list (option K)) : nat :=
  List.length (filter (fun o => match o with
                                | Some k' => keqb k' k
                                | None => false
                                end) keys).

(** The size recorded for key [k] in a table of group sizes. *)
Fixpoint size_of {K} `{Key K} (k : K) (g : list (K * nat)) : nat :=
  match g with
  | [] => 0%nat
  | (k', n) :: g' => ((if keqb k' k then n else 0) + size_of k g')%nat
  end.

(** Days from 1970-01-01 to a date of the proleptic Gregorian calendar. *)
Definition days_from_civil (y m d : Z) : Z :=
  let y' := if m <=? 2 then y - 1 else y in
  let era := y' / 400 in
  let yoe := y' - era * 400 in
  let mp := (m + 9) mod 12 in
  let doy := (153 * mp + 2) / 5 + d - 1 in
  let doe := yoe * 365 + yoe / 4 - yoe / 100 + doy in
  era * 146097 + doe - 719468.

(** The [datetime64[ns]] value of midnight on a date. *)
Definition date (y m d : Z) : Z :=
  days_from_civil y m d * 86400 * 1000000000.

(** A row with its arrival date replaced. *)
Definition with_arrival (d : Z) (r : Row) : Row :=
  col.mk (col.branch r) (col.route r) (col.delivery_id r) (Some d)
         (col.beneficiaries_count r) (col.capacity_utilisation r)
         (col.cargo_subtype r) (col.cargo_type r) (col.created_date r)
         (col.day_of_week r) (col.distribution_center r) (col.driver_name r)
         (col.region r) (col.released_tonnes r) (col.requested_tonnes r)
         (col.return_percentage r) (col.status r) (col.urgency_level r)
         (col.vehicle r) (col.vehicle_load_tonnes r)
         (col.warehouse_release_time_hours r) (col.week_range r).


(** A delivery of the examples, by branch, region, status, week and
    capacity utilisation. *)
Definition delivery (branch : text) (region status week : text)
    (capacity : number) : Row :=
  col.mk branch None None None PrimFloat.nan capacity None None None None
         None None region PrimFloat.nan PrimFloat.nan PrimFloat.nan status
         None None PrimFloat.nan PrimFloat.nan week.

(** A table of group sizes as [groupby] leaves it: keys strictly ascending,
    every size positive. *)
Definition well_grouped {K} `{Key K} (g : list (K * nat)) : Prop :=
  StronglySorted klt (map fst g) /\ Forall (fun kn => (0 < snd kn)%nat) g.

(** Whether a row has a branch. *)
Definition has_branch (r : Row) : bool :=
  match col.branch r with
  | Some _ => true
  | None => false
  end.

(** The total of the sizes in a table of group sizes. *)
Definition total {K} (g : list (K * nat)) : nat := list_sum (map snd g).

(** ** Vocabulary of the round trip *)

(** One character of a text without carriage return, the end of line
    included, and a whole such text. *)
Definition advance (r : csv.reader) (c : ascii) : csv.reader :=
  if Ascii.eqb c csv.LF then csv.eol (csv.step r c) else csv.step r c.

Definition run (r : csv.reader) (s : list ascii) : csv.reader :=
  fold_left advance s r.

Definition no_cr (s : list ascii) : bool :=
  forallb (fun c => negb (Ascii.eqb c csv.CR)) s.

(** The reader between two fields: at the start of a record or of a field,
    nothing read of the field yet. *)
Definition at_field (r : csv.reader) : Prop :=
  (csv.st r = csv.StartRecord \/ csv.st r = csv.StartField) /\ csv.fld r = [].

Definition reader_at (s : csv.state) (fld : list ascii)
    (r : csv.reader) : csv.reader :=
  {| csv.st := s; csv.fld := fld; csv.rec := csv.rec r; csv.done := csv.done r |}.

(** A character the writer never quotes for, and that ends no line. *)
Definition ordinary (c : ascii) : bool :=
  negb (csv.special c) && negb (Ascii.eqb c csv.CR).

(** A text that is written as it is and read back as it is: not empty,
    ordinary characters only. *)
Definition plain (s : string) : bool :=
  match s with
  | EmptyString => false
  | _ => forallb ordinary (list_ascii_of_string s)
  end.

(** A text cell that survives the export: missing, or a text that is not
    empty and has no carriage return. *)
Definition text_ok (c : text) : bool :=
  match c with
  | None => true
  | Some EmptyString => false
  | Some s => no_cr (list_ascii_of_string s)
  end.

Section Exportable.

Variable float_str : float -> string.
Variable float_parse : string -> option float.
Variable date_str : list datetime -> Z -> string.
Variable date_parse : string -> option Z.

(** A number that is missing, or whose text is plain and reads back to the
    same float. *)
Definition number_ok (x : number) : bool :=
  PrimFloat.is_nan x
  || (plain (float_str x)
      && match float_parse (float_str x) with
         | Some y => PrimFloat.Leibniz.eqb y x
         | None => false
         end).

(** A date that is missing, or whose text is plain and reads back to the
    same instant. *)
Definition date_ok (column : list datetime) (d : datetime) : bool :=
  match d with
  | None => true
  | Some t =>
      plain (date_str column t)
      && match date_parse (date_str column t) with
         | Some t' => t' =? t
         | None => false
         end
  end.

Definition row_ok (frame : list Row) (r : Row) : bool :=
  text_ok (col.branch r)
  && text_ok (col.route r)
  && text_ok (col.delivery_id r)
  && date_ok (map col.arrival_date frame) (col.arrival_date r)
  && number_ok (col.beneficiaries_count r)
  && number_ok (col.capacity_utilisation r)
  && text_ok (col.cargo_subtype r)
  && text_ok (col.cargo_type r)
  && date_ok (map col.created_date frame) (col.created_date r)
  && text_ok (col.day_of_week r)
  && text_ok (col.distribution_center r)
  && text_ok (col.driver_name r)
  && text_ok (col.region r)
  && number_ok (col.released_tonnes r)
  && number_ok (col.requested_tonnes r)
  && number_ok (col.return_percentage r)
  && text_ok (col.status r)
  && text_ok (col.urgency_level r)
  && text_ok (col.vehicle r)
  && number_ok (col.vehicle_load_tonnes r)
  && number_ok (col.warehouse_release_time_hours r)
  && text_ok (col.week_range r).

(** A table every cell of which survives the export. *)
Definition exportable (frame : list Row) : bool :=
  forallb (row_ok frame) frame.

End Exportable.

(** A row with its route replaced. *)
Definition with_route (route : text) (r : Row) : Row :=
  col.mk (col.branch r) route (col.delivery_id r) (col.arrival_date r)
         (col.beneficiaries_count r) (col.capacity_utilisation r)
         (col.cargo_subtype r) (col.cargo_type r) (col.created_date r)
         (col.day_of_week r) (col.distribution_center r) (col.driver_name r)
         (col.region r) (col.released_tonnes r) (col.requested_tonnes r)
         (col.return_percentage r) (col.status r) (col.urgency_level r)
         (col.vehicle r) (col.vehicle_load_tonnes r)
         (col.warehouse_release_time_hours r) (col.week_range r).

(** Texts of the examples: a double quote, a line feed, a carriage
    return. *)
Definition quote_mark : string := String csv.dquote EmptyString.
Definition line_feed : string := String csv.LF EmptyString.
Definition carriage_return : string := String csv.CR EmptyString.

(** A filtered row of the examples: delivered in the North in week W1, with
    a route that holds a comma and quotes, a driver name over two lines, an
    arrival date, two numbers and the other cells missing. *)
Definition sample : Row :=
  (col.mk (Some "B1")
          (Some ("Kyiv, north " ++ quote_mark ++ "loop" ++ quote_mark))
          (Some "d-1") (Some (date 2024 1 1)) 120%float 80%float None
          (Some "food") None (Some "Mon") None
          (Some ("Olena" ++ line_feed ++ "Petrenko")) (Some "North")
          PrimFloat.nan PrimFloat.nan PrimFloat.nan (Some "Delivered") None
          None PrimFloat.nan PrimFloat.nan (Some "W1"))%string.

(** Printers and readers of the examples, for the numbers and the date of
    [sample]. *)
Definition sample_float_parse (s : string) : option float :=
  if String.eqb s "120.0" then Some 120%float
  else if String.eqb s "80.0" then Some 80%float
  else None.

Definition sample_date_str (column : list datetime) (t : Z) : string :=
  py.digits t.

Definition sample_date_parse (s : string) : option Z :=
  if String.eqb s (py.digits (date 2024 1 1)) then Some (date 2024 1 1)
  else None.

(** ** Vocabulary of the further properties *)

(** The number of rows whose cell under [key] is the text [v]. *)
Definition rows_with (key : Row -> text) (v : string) (f : list Row) : nat :=
  List.length (filter (fun r => pd.same (key r) (Some v)) f).

(** The number of rows whose cells under two keys are two given texts. *)
Definition rows_with2 (ka kb : Row -> text) (a b : string) (f : list Row)
  : nat :=
  List.length (filter (fun r => pd.same (ka r) (Some a)
                                && pd.same (kb r) (Some b)) f).

(** The first line of every export: the column names of the projection
    between commas, and a line feed. *)
Definition header_line : string :=
  (String.concat "," projection ++ line_feed)%string.

(** A text cell with the empty text made missing, and a row with every
    text cell so treated. *)
Definition missing_if_empty (c : text) : text :=
  match c with
  | Some EmptyString => None
  | _ => c
  end.

Definition without_empty_texts (r : Row) : Row :=
  col.mk (missing_if_empty (col.branch r)) (missing_if_empty (col.route r))
         (missing_if_empty (col.delivery_id r)) (col.arrival_date r)
         (col.beneficiaries_count r) (col.capacity_utilisation r)
         (missing_if_empty (col.cargo_subtype r))
         (missing_if_empty (col.cargo_type r)) (col.created_date r)
         (missing_if_empty (col.day_of_week r))
         (missing_if_empty (col.distribution_center r))
         (missing_if_empty (col.driver_name r))
         (missing_if_empty (col.region r)) (col.released_tonnes r)
         (col.requested_tonnes r) (col.return_percentage r)
         (missing_if_empty (col.status r))
         (missing_if_empty (col.urgency_level r))
         (missing_if_empty (col.vehicle r)) (col.vehicle_load_tonnes r)
         (col.warehouse_release_time_hours r)
         (missing_if_empty (col.week_range r)).

(** Counts in descending order. *)
Definition count_ge (p q : text * nat) : Prop := (snd q <= snd p)%nat.

(** * Properties *)

(** ** Cells and comparisons *)

Lemma pd_eq_true (c : text) (v : string) :
  pd.eq c (Some v) = true <-> c = Some v.
Proof.
  destruct c as [s|]; simpl.
  - rewrite String.eqb_eq. split; congruence.
  - split; discriminate.
Qed.

Lemma pd_eq_missing_cell (v : text) : pd.eq None v = false.
Proof. reflexivity. Qed.

Lemma pd_eq_missing_value (c : text) : pd.eq c None = false.
Proof. destruct c; reflexivity. Qed.

Lemma pd_same_true (a b : text) : pd.same a b = true <-> a = b.
Proof.
  destruct a as [x|], b as [y|]; simpl; try (split; congruence).
  rewrite String.eqb_eq. split; congruence.
Qed.

Lemma pd_same_refl (a : text) : pd.same a a = true.
Proof. apply pd_same_true. reflexivity. Qed.

Lemma pd_isin_In (c : text) (values : list text) :
  pd.isin c values = true <-> In c values.
Proof.
  unfold pd.isin. rewrite existsb_exists. split.
  - intros [v [Hin Hs]]. apply pd_same_true in Hs. subst. exact Hin.
  - intro Hin. exists c. split; [exact Hin | apply pd_same_refl].
Qed.

Lemma pd_ne_true (c : text) (v : string) :
  pd.ne c (Some v) = true <-> c <> Some v.
Proof.
  unfold pd.ne. rewrite negb_true_iff, <- not_true_iff_false, pd_eq_true.
  reflexivity.
Qed.

Lemma keep_selected (region week : string) (statuses : list text) (r : Row) :
  keep (Some region) statuses (Some week) r = true
  <-> selected region statuses week r.
Proof.
  unfold keep, selected.
  rewrite !andb_true_iff, !pd_eq_true, pd_isin_In. tauto.
Qed.

(** ** Lists *)

Lemma filter_Subseq {A} (f : A -> bool) (l : list A) : Subseq (filter f l) l.
Proof.
  induction l as [|x l IH]; simpl.
  - constructor.
  - destruct (f x); constructor; exact IH.
Qed.

Lemma filter_split {A} (f : A -> bool) (l : list A) :
  Permutation l (filter f l ++ filter (fun x => negb (f x)) l).
Proof.
  induction l as [|x l IH]; simpl.
  - constructor.
  - destruct (f x); simpl.
    + constructor. exact IH.
    + apply Permutation_cons_app. exact IH.
Qed.

(** ** The filter *)

Lemma filtered_In (df : list Row) (region week : string)
    (statuses : list text) (r : Row) :
  In r (filtered df (Some region) statuses (Some week))
  <-> In r df /\ selected region statuses week r.
Proof.
  unfold filtered. rewrite filter_In, keep_selected. reflexivity.
Qed.

(** C1. For every loaded table and every selection of a region, a set of
    statuses and a week range, the filtered table is exactly the rows of the
    loaded table that satisfy the three predicates together: a row is in it
    if and only if it is a row of the table with that region, a status in
    the set and that week range; the rows come in the table's order; and the
    rows left out, which with the kept ones make up the table, each fail one
    of the predicates. *)
Theorem filtered_exactly_the_selected_rows :
  forall (df : list Row) (region week : string) (statuses : list text),
    let f := filtered df (Some region) statuses (Some week) in
    (forall r, In r f <-> In r df /\ selected region statuses week r)
    /\ Subseq f df
    /\ exists rest,
         Permutation df (f ++ rest)
         /\ Forall (fun r => ~ selected region statuses week r) rest.
Proof.
  intros df region week statuses f. unfold f, filtered.
  split; [|split].
  - intro r. apply filtered_In.
  - apply filter_Subseq.
  - exists (filter (fun r => negb (keep (Some region) statuses (Some week) r)) df).
    split.
    + apply filter_split.
    + apply Forall_forall. intros r Hr. apply filter_In in Hr.
      destruct Hr as [_ Hr]. rewrite <- keep_selected.
      apply negb_true_iff in Hr. congruence.
Qed.

(** A selector without options returns [None], and no row equals it. *)
Lemma filtered_without_region (df : list Row) (status : list text)
    (selected_week : text) :
  filtered df None status selected_week = [].
Proof.
  unfold filtered. induction df as [|r df IH]; simpl.
  - reflexivity.
  - unfold keep at 1. rewrite pd_eq_missing_value. simpl. exact IH.
Qed.

Lemma filtered_missing_region (df : list Row) (selected_region : text)
    (status : list text) (selected_week : text) (r : Row) :
  col.region r = None ->
  ~ In r (filtered df selected_region status selected_week).
Proof.
  intros E Hin. apply filter_In in Hin. destruct Hin as [_ Hk].
  unfold keep in Hk. rewrite E, pd_eq_missing_cell in Hk. discriminate.
Qed.

(** C7. For every loaded table, an empty status selection leaves no row in
    the filtered table, whatever region and week range are selected. *)
Theorem filtered_empty_status_selection :
  forall (df : list Row) (selected_region selected_week : text),
    filtered df selected_region [] selected_week = [].
Proof.
  intros df g w. unfold filtered.
  induction df as [|r df IH]; simpl.
  - reflexivity.
  - unfold keep at 1. simpl. rewrite andb_false_r. simpl. exact IH.
Qed.

(** ** Floats *)

Lemma SFcompare_antisym (x y : spec_float) :
  SFcompare y x = option_map CompOpp (SFcompare x y).
Proof.
  pose proof (fun p q => Pos.compare_cont_antisym p q Eq) as HP.
  simpl in HP.
  destruct x as [sx|sx| |sx mx ex], y as [sy|sy| |sy my ey]; simpl;
    try reflexivity;
    try (destruct sx; reflexivity);
    try (destruct sy; reflexivity);
    try (destruct sx, sy; reflexivity).
  destruct sx, sy; simpl; try reflexivity;
    rewrite (Z.compare_antisym ex ey);
    destruct (ex ?= ey)%Z; simpl; try reflexivity;
    rewrite <- (HP mx my); try rewrite CompOpp_involutive; reflexivity.
Qed.

Lemma float_lt_not_ge (x y : float) :
  PrimFloat.ltb x y = true -> PrimFloat.leb y x = false.
Proof.
  rewrite FloatAxioms.ltb_spec, FloatAxioms.leb_spec. unfold SFltb, SFleb.
  rewrite (SFcompare_antisym (Prim2SF x) (Prim2SF y)).
  destruct (SFcompare (Prim2SF x) (Prim2SF y)) as [[ | | ]|];
    simpl; congruence.
Qed.

Lemma is_nan_nan (x : float) : PrimFloat.is_nan x = true -> x = PrimFloat.nan.
Proof.
  unfold PrimFloat.is_nan. rewrite negb_true_iff, FloatAxioms.eqb_spec.
  unfold SFeqb.
  intro H. apply Prim2SF_inj.
  change (Prim2SF PrimFloat.nan) with S754_nan.
  destruct (Prim2SF x) as [s|s| |s m e]; simpl in H; try reflexivity;
    try (destruct s; discriminate).
  destruct s; rewrite Z.compare_refl, Pos.compare_cont_refl in H;
    discriminate.
Qed.

(** ** The exception table *)

Lemma exceptional_true (r : Row) :
  pd.lt (col.capacity_utilisation r) 50%float
  || pd.ne (col.status r) (Some "Delivered"%string) = true
  <-> exceptional r.
Proof.
  unfold exceptional, pd.lt. rewrite orb_true_iff, pd_ne_true. reflexivity.
Qed.

(** C2. For every filtered table, a row is in the exception table if and
    only if it is a row of the filtered table whose capacity utilisation is
    below 50 or whose status is not exactly "Delivered" (either or both);
    the rows keep the order of the filtered table; and no row of the
    exception table has both a capacity utilisation of 50 or more and the
    status "Delivered". *)
Theorem low_capacity_exactly_the_exceptions :
  forall (f : list Row),
    (forall r, In r (low_capacity f) <-> In r f /\ exceptional r)
    /\ Subseq (low_capacity f) f
    /\ (forall r, In r (low_capacity f) ->
          ~ (PrimFloat.leb 50%float (col.capacity_utilisation r) = true
             /\ col.status r = Some "Delivered"%string)).
Proof.
  intro f. unfold low_capacity. split; [|split].
  - intro r. rewrite filter_In, exceptional_true. reflexivity.
  - apply filter_Subseq.
  - intros r Hr [Hge Hst]. apply filter_In in Hr. destruct Hr as [_ Hr].
    apply exceptional_true in Hr. destruct Hr as [Hlt | Hne].
    + apply float_lt_not_ge in Hlt. congruence.
    + contradiction.
Qed.

(** ** Group sizes *)

Section Groups.

Context {K : Type} `{Key K}.

Lemma keqb_true (a b : K) : keqb a b = true <-> a = b.
Proof.
  unfold keqb. split.
  - destruct (kcmp a b) eqn:E; try discriminate. intros _. apply kcmp_eq, E.
  - intros ->. rewrite kcmp_refl. reflexivity.
Qed.

Lemma klt_keqb (a b : K) : klt a b -> keqb a b = false.
Proof. unfold klt, keqb. intros ->. reflexivity. Qed.

Lemma kcmp_Gt_klt (a b : K) : kcmp a b = Gt -> klt b a.
Proof.
  unfold klt. intro E. rewrite (kcmp_antisym b a), E. reflexivity.
Qed.

Lemma total_bump (k : K) (g : list (K * nat)) :
  total (pd.bump k g) = S (total g).
Proof.
  unfold total. induction g as [|[k' n] g IH]; simpl.
  - reflexivity.
  - destruct (kcmp k k'); simpl; try rewrite IH; lia.
Qed.

Lemma size_of_bump (k0 k : K) (g : list (K * nat)) :
  size_of k (pd.bump k0 g)
  = ((if keqb k0 k then 1 else 0) + size_of k g)%nat.
Proof.
  induction g as [|[k' n] g IH]; simpl.
  - lia.
  - destruct (kcmp k0 k') eqn:E; simpl.
    + apply kcmp_eq in E. subst k'. destruct (keqb k0 k); lia.
    + reflexivity.
    + rewrite IH. lia.
Qed.

Lemma bump_above (a k : K) (g : list (K * nat)) :
  klt a k -> Forall (klt a) (map fst g) ->
  Forall (klt a) (map fst (pd.bump k g)).
Proof.
  intros Hak. induction g as [|[k' n] g IH]; simpl; intro Hg.
  - constructor; [exact Hak | constructor].
  - inversion Hg as [|? ? Hk' Hg']; subst.
    destruct (kcmp k k'); simpl.
    + constructor; assumption.
    + constructor; [exact Hak | constructor; assumption].
    + constructor; [exact Hk' | apply IH; exact Hg'].
Qed.

Lemma bump_well_grouped (k : K) (g : list (K * nat)) :
  well_grouped g -> well_grouped (pd.bump k g).
Proof.
  unfold well_grouped. induction g as [|[k' n] g IH]; simpl; intros [Hs Hp].
  - split; repeat constructor.
  - inversion Hs as [|? ? Hs' Hall]; subst.
    inversion Hp as [|? ? Hn Hp']; subst.
    destruct (kcmp k k') eqn:E; simpl.
    + split.
      * constructor; assumption.
      * constructor; [simpl; lia | assumption].
    + split.
      * constructor; [constructor; assumption |].
        constructor; [exact E |].
        eapply Forall_impl; [| exact Hall].
        intros c Hc. exact (kcmp_trans _ _ _ E Hc).
      * constructor; [simpl; lia | constructor; assumption].
    + destruct (IH (conj Hs' Hp')) as [IHs IHp]. split.
      * constructor; [exact IHs |].
        apply bump_above; [apply kcmp_Gt_klt, E | exact Hall].
      * constructor; assumption.
Qed.

Lemma size_of_above (k : K) (g : list (K * nat)) :
  Forall (klt k) (map fst g) -> size_of k g = 0%nat.
Proof.
  induction g as [|[k' n] g IH]; simpl; intro Hg.
  - reflexivity.
  - inversion Hg as [|? ? Hk Hg']; subst.
    rewrite (IH Hg'). unfold klt in Hk. unfold keqb.
    rewrite (kcmp_antisym k' k), Hk. reflexivity.
Qed.

Lemma well_grouped_In (g : list (K * nat)) (k : K) (n : nat) :
  well_grouped g ->
  (In (k, n) g <-> size_of k g = n /\ (0 < n)%nat).
Proof.
  unfold well_grouped. induction g as [|[k' n'] g IH]; simpl; intros [Hs Hp].
  - split; [tauto | lia].
  - inversion Hs as [|? ? Hs' Hall]; subst.
    inversion Hp as [|? ? Hn Hp']; subst. simpl in Hn.
    specialize (IH (conj Hs' Hp')). split.
    + intros [Heq | Hin].
      * inversion Heq; subst. rewrite (size_of_above _ _ Hall).
        replace (keqb k k) with true
          by (symmetry; apply keqb_true; reflexivity).
        lia.
      * assert (Hk : klt k' k).
        { rewrite Forall_forall in Hall. apply Hall.
          apply (in_map fst) in Hin. exact Hin. }
        rewrite (klt_keqb _ _ Hk). simpl. apply IH. exact Hin.
    + intros [Hsz Hpos]. destruct (keqb k' k) eqn:E.
      * apply keqb_true in E. subst k'.
        rewrite (size_of_above _ _ Hall) in Hsz. left. f_equal. lia.
      * right. apply IH. split; [exact Hsz | exact Hpos].
Qed.

Lemma groupby_fold (keys : list (option K)) (g : list (K * nat)) :
  let g' :=
    fold_left (fun g k => match k with Some k => pd.bump k g | None => g end)
              keys g in
  (well_grouped g -> well_grouped g')
  /\ total g' = (total g + List.length (pd.dropna keys))%nat
  /\ forall k, size_of k g' = (size_of k g + occurrences k keys)%nat.
Proof.
  revert g. induction keys as [|[k0|] keys IH]; intro g; simpl.
  - unfold occurrences. simpl. split; [auto | split; [lia | intro; lia]].
  - destruct (IH (pd.bump k0 g)) as [Hw [Ht Hs]]. split; [|split].
    + intro Hg. apply Hw, bump_well_grouped, Hg.
    + rewrite Ht, total_bump. lia.
    + intro k. rewrite Hs, size_of_bump. unfold occurrences. simpl.
      destruct (keqb k0 k); simpl; lia.
  - destruct (IH g) as [Hw [Ht Hs]]. split; [|split]; auto.
Qed.

(** The keys of a table of group sizes ascend strictly. *)
Lemma groupby_size_sorted (keys : list (option K)) :
  StronglySorted klt (map fst (pd.groupby_size keys)).
Proof.
  apply (groupby_fold keys []). split; constructor.
Qed.

(** A line of the table is a key that occurs, with its number of
    occurrences. *)
Lemma groupby_size_In (keys : list (option K)) (k : K) (n : nat) :
  In (k, n) (pd.groupby_size keys)
  <-> n = occurrences k keys /\ (0 < n)%nat.
Proof.
  destruct (groupby_fold keys []) as [Hw [_ Hs]].
  assert (Hg : well_grouped (pd.groupby_size keys))
    by (apply Hw; split; constructor).
  rewrite (well_grouped_In _ k n Hg). unfold pd.groupby_size.
  rewrite Hs. simpl. intuition lia.
Qed.

(** The sizes add up to the number of keys that are not missing. *)
Lemma groupby_size_total (keys : list (option K)) :
  total (pd.groupby_size keys) = List.length (pd.dropna keys).
Proof.
  destruct (groupby_fold keys []) as [_ [Ht _]].
  unfold pd.groupby_size. rewrite Ht. reflexivity.
Qed.

End Groups.

(** ** Trips per branch *)

Lemma dropna_length_branch (f : list Row) :
  List.length (pd.dropna (map col.branch f))
  = List.length (filter has_branch f).
Proof.
  induction f as [|r f IH]; simpl.
  - reflexivity.
  - unfold has_branch at 1. destruct (col.branch r); simpl; rewrite IH;
      reflexivity.
Qed.

Lemma filter_all {A} (p : A -> bool) (l : list A) :
  Forall (fun x => p x = true) l -> filter p l = l.
Proof.
  induction 1 as [|x l Hx _ IH]; simpl.
  - reflexivity.
  - rewrite Hx, IH. reflexivity.
Qed.

(** C5, as the code has it.  For every filter selection, the per-branch
    trip counts add up to the number of filtered rows that have a branch:
    a row whose branch is missing is in no group.  The sum is the total row
    count of the filtered table whenever every filtered row has a branch. *)
Theorem trips_total_counts_rows_with_branch :
  forall (df : list Row) (selected_region : text) (status : list text)
         (selected_week : text),
    let f := filtered df selected_region status selected_week in
    total (trips_df f) = List.length (filter has_branch f)
    /\ (Forall (fun r => has_branch r = true) f ->
        total (trips_df f) = deliveries f).
Proof.
  intros df g st w f.
  assert (E : total (trips_df f) = List.length (filter has_branch f)).
  { unfold trips_df. rewrite groupby_size_total. apply dropna_length_branch. }
  split; [exact E |].
  intro Hall. rewrite E, (filter_all _ _ Hall). reflexivity.
Qed.

(** C5, the claim as stated, fails on a table whose one row has no branch:
    on the first run that row is the whole filtered table, the deliveries
    metric is 1 and the trips-per-branch view is empty. *)
Lemma trips_total_misses_row_without_branch :
  let df := [delivery None (Some "North") (Some "Delivered") (Some "W1")
                      80%float]%string in
  let f := filtered df (selected_region df first_run) (status df first_run)
                    (selected_week df first_run) in
  f = df /\ deliveries f = 1%nat /\ trips_df f = []
  /\ total (trips_df f) = 0%nat.
Proof. repeat split. Qed.

(** ** Deliveries over time *)

(** C6. The deliveries-over-time view of a filtered table that has rows
    lists, in strictly ascending order of arrival date, each arrival date of
    a filtered row with the number of filtered rows on that date, and
    nothing else; rows on 2024-01-01, 2024-01-01 and 2024-01-03 give the two
    points (2024-01-01, 2) and (2024-01-03, 1) in that order. *)
Theorem time_df_counts_per_date_ascending :
  (forall (r : Row) (f : list Row),
     exists points,
       time_df (r :: f) = Some points
       /\ StronglySorted Z.lt (map fst points)
       /\ forall d n,
            In (d, n) points
            <-> n = occurrences d (map col.arrival_date (r :: f))
                /\ (0 < n)%nat)
  /\ (forall r1 r2 r3 : Row,
        time_df [with_arrival (date 2024 1 1) r1;
                 with_arrival (date 2024 1 1) r2;
                 with_arrival (date 2024 1 3) r3]
        = Some [(date 2024 1 1, 2%nat); (date 2024 1 3, 1%nat)]).
Proof.
  split.
  - intros r f.
    exists (pd.groupby_size (map col.arrival_date (r :: f))).
    split; [reflexivity | split].
    + exact (groupby_size_sorted (map col.arrival_date (r :: f))).
    + intros d n. apply groupby_size_In.
  - intros r1 r2 r3. reflexivity.
Qed.

(** ** Distinct values, missing values, sorting *)

Section Unique.

Context {A : Type} (same : A -> A -> bool).
Hypothesis same_spec : forall a b, same a b = true <-> a = b.

Lemma unique_In (l : list A) (x : A) : In x (pd.unique same l) <-> In x l.
Proof.
  induction l as [|c l IH]; simpl.
  - reflexivity.
  - rewrite filter_In, IH, negb_true_iff. split.
    + intros [E | [Hin _]]; auto.
    + intros [E | Hin]; auto.
      destruct (same c x) eqn:Ecx; auto.
      apply same_spec in Ecx. auto.
Qed.

Lemma unique_NoDup (l : list A) : NoDup (pd.unique same l).
Proof.
  induction l as [|c l IH]; simpl.
  - constructor.
  - constructor.
    + rewrite filter_In, negb_true_iff. intros [_ Hc].
      rewrite (proj2 (same_spec c c) eq_refl) in Hc. discriminate.
    + apply NoDup_filter, IH.
Qed.


End Unique.

Lemma dropna_In {A} (l : list (option A)) (a : A) :
  In a (pd.dropna l) <-> In (Some a) l.
Proof.
  induction l as [|[b|] l IH]; simpl.
  - reflexivity.
  - rewrite IH. split; intros [E | Hin]; auto; left; congruence.
  - rewrite IH. split; auto. intros [E | Hin]; [discriminate | auto].
Qed.


Lemma leb_klt (a b : string) : String.leb a b = true -> a <> b -> klt a b.
Proof.
  unfold klt, String.leb. simpl. intros Hle Hne.
  destruct (String.compare a b) eqn:E; try reflexivity; try discriminate.
  apply String.compare_eq_iff in E. contradiction.
Qed.

Lemma not_leb_klt (a b : string) : String.leb a b = false -> klt b a.
Proof.
  unfold String.leb. intro Hle. apply kcmp_Gt_klt. simpl.
  destruct (String.compare a b); try discriminate. reflexivity.
Qed.


Lemma insert_In (s x : string) (l : list string) :
  In x (py.insert s l) <-> x = s \/ In x l.
Proof.
  induction l as [|t l IH]; simpl.
  - intuition.
  - destruct (String.leb s t); simpl; [|rewrite IH]; intuition.
Qed.

Lemma sorted_In (l : list string) (x : string) : In x (py.sorted l) <-> In x l.
Proof.
  induction l as [|s l IH]; simpl.
  - reflexivity.
  - rewrite insert_In, IH. intuition.
Qed.

Lemma insert_ascending (s : string) (l : list string) :
  StronglySorted klt l -> ~ In s l -> StronglySorted klt (py.insert s l).
Proof.
  induction l as [|t l IH]; simpl; intros Hs Hn.
  - repeat constructor.
  - inversion Hs as [|? ? Hs' Hall]; subst.
    destruct (String.leb s t) eqn:E.
    + assert (Hst : klt s t) by (apply leb_klt; [exact E | intuition]).
      constructor; [exact Hs |].
      constructor; [exact Hst |].
      eapply Forall_impl; [| exact Hall].
      intros c Hc. exact (kcmp_trans _ _ _ Hst Hc).
    + constructor.
      * apply IH; [exact Hs' | intuition].
      * apply Forall_forall. intros x Hx. apply insert_In in Hx.
        destruct Hx as [-> | Hx].
        -- apply not_leb_klt, E.
        -- rewrite Forall_forall in Hall. apply Hall, Hx.
Qed.

Lemma sorted_ascending (l : list string) :
  NoDup l -> StronglySorted klt (py.sorted l).
Proof.
  induction 1 as [|s l Hn _ IH]; simpl.
  - constructor.
  - apply insert_ascending; [exact IH |]. rewrite sorted_In. exact Hn.
Qed.


(** ** The sidebar options *)

Lemma regions_In (df : list Row) (g : string) :
  In g (regions df) <-> exists r, In r df /\ col.region r = Some g.
Proof.
  unfold regions. rewrite (unique_In _ String.eqb_eq), dropna_In, in_map_iff.
  split; intros [r [H1 H2]]; exists r; auto.
Qed.

Lemma weeks_In (df : list Row) (w : string) :
  In w (weeks df) <-> exists r, In r df /\ col.week_range r = Some w.
Proof.
  unfold weeks.
  rewrite sorted_In, (unique_In _ String.eqb_eq), dropna_In, in_map_iff.
  split; intros [r [H1 H2]]; exists r; auto.
Qed.

Lemma weeks_ascending (df : list Row) : StronglySorted klt (weeks df).
Proof. apply sorted_ascending, (unique_NoDup _ String.eqb_eq). Qed.

Lemma status_options_In (df : list Row) (c : text) :
  In c (status_options df) <-> exists r, In r df /\ col.status r = c.
Proof.
  unfold status_options. rewrite (unique_In _ pd_same_true), in_map_iff.
  split; intros [r [H1 H2]]; exists r; auto.
Qed.


(** C10. The region options are the distinct regions of the loaded table,
    missing values removed; the week options likewise, and in ascending
    order; the status options are the distinct cells of the status column, a
    missing one included when the column has one.  So a row without status
    is offered for selection and passes the filter when all the status
    options are selected, while a row without region or without week range
    passes the filter under no selection. *)
Theorem selector_options_and_missing_values :
  forall df : list Row,
    ((forall g, In g (regions df)
                <-> exists r, In r df /\ col.region r = Some g)
     /\ NoDup (regions df))
    /\ ((forall w, In w (weeks df)
                   <-> exists r, In r df /\ col.week_range r = Some w)
        /\ StronglySorted klt (weeks df))
    /\ ((forall c : text, In c (status_options df)
                          <-> exists r, In r df /\ col.status r = c)
        /\ NoDup (status_options df))
    /\ (forall r g w,
          In r df -> col.status r = None ->
          col.region r = Some g -> col.week_range r = Some w ->
          In None (status_options df)
          /\ In r (filtered df (Some g) (status_options df) (Some w)))
    /\ (forall r selected_region status selected_week,
          col.region r = None \/ col.week_range r = None ->
          ~ In r (filtered df selected_region status selected_week)).
Proof.
  intro df. split; [|split; [|split; [|split]]].
  - split; [intro g; apply regions_In | apply (unique_NoDup _ String.eqb_eq)].
  - split; [intro w; apply weeks_In | apply weeks_ascending].
  - split; [intro c; apply status_options_In
           | apply (unique_NoDup _ pd_same_true)].
  - intros r g w Hr Hst Hg Hw.
    assert (Hopt : In None (status_options df))
      by (apply status_options_In; exists r; auto).
    split; [exact Hopt |].
    apply (filtered_In df g w (status_options df) r).
    split; [exact Hr |]. unfold selected. rewrite Hst. auto.
  - intros r g st w Hmiss Hin. unfold filtered in Hin.
    apply filter_In in Hin. destruct Hin as [_ Hk]. unfold keep in Hk.
    apply andb_true_iff in Hk. destruct Hk as [Hk Hw].
    apply andb_true_iff in Hk. destruct Hk as [Hg _].
    destruct Hmiss as [E | E]; rewrite E in *; discriminate.
Qed.

(** ** The empty filtered table *)

(** C3, the claim as stated, fails: over an empty filtered table both means
    are NaN, and the f-string renders NaN as the text "nan%", not as
    "no data". *)
Lemma empty_mean_reads_nan :
  avg_capacity_utilisation [] = "nan%"%string
  /\ avg_return [] = "nan%"%string
  /\ String.eqb (avg_capacity_utilisation []) "no data" = false
  /\ String.eqb (avg_return []) "no data" = false.
Proof. repeat split. Qed.

(** C3, as the code has it.  When the filtered table is empty, the mean
    capacity utilisation and the mean return percentage are each rendered
    as the text "nan%": the mean over no rows is NaN, formatted with one
    decimal and a percent sign. *)
Theorem empty_filtered_means_render_nan :
  forall (df : list Row) (selected_region : text) (status : list text)
         (selected_week : text),
    filtered df selected_region status selected_week = [] ->
    avg_capacity_utilisation
      (filtered df selected_region status selected_week) = "nan%"%string
    /\ avg_return
         (filtered df selected_region status selected_week) = "nan%"%string.
Proof.
  intros df g st w Hf. rewrite Hf. split; reflexivity.
Qed.

(** The statement above on a one-row table filtered for another region. *)
Lemma empty_filtered_means_render_nan_witness :
  let df := [delivery (Some "B1") (Some "North") (Some "Delivered")
                      (Some "W1") 80%float]%string in
  filtered df (Some "South"%string) [Some "Delivered"%string]
           (Some "W1"%string) = []
  /\ avg_capacity_utilisation
       (filtered df (Some "South"%string) [Some "Delivered"%string]
                 (Some "W1"%string)) = "nan%"%string
  /\ avg_return
       (filtered df (Some "South"%string) [Some "Delivered"%string]
                 (Some "W1"%string)) = "nan%"%string.
Proof.
  split; [reflexivity |].
  apply (empty_filtered_means_render_nan
           [delivery (Some "B1") (Some "North") (Some "Delivered")
                     (Some "W1") 80%float]%string
           (Some "South"%string) [Some "Delivered"%string]
           (Some "W1"%string)).
  reflexivity.
Defined.

(** An empty result set gives a frame without columns, and the first column
    access of the script raises. *)
Lemma dashboard_empty_result_set
    (float_str : float -> string) (date_str : list datetime -> Z -> string)
    (s : Session) :
  dashboard float_str date_str [] s = py.Raise (py.KeyError "region").
Proof. reflexivity. Qed.

(** C8, the claim as stated, fails for one grouped view: when the filtered
    table is empty the deliveries-over-time view is not computed at all, so
    it produces no table, empty or otherwise.  Here the table has one row
    and the user has deselected every status. *)
Lemma empty_filtered_skips_time_series :
  exists p,
    dashboard (fun _ => EmptyString) (fun _ _ => EmptyString)
      [delivery (Some "B1") (Some "North") (Some "Delivered") (Some "W1")
                80%float]%string
      {| region_pick := None; status_pick := Some []; week_pick := None |}
    = py.Ok p
    /\ page.filtered p = []
    /\ page.time_df p = None
    /\ page.trips_df p = [].
Proof. eexists. repeat split. Qed.

(** C8, as the code has it.  On a loaded table with rows, when the filtered
    table is empty the run completes without raising: the deliveries count
    is 0, the beneficiary sum is 0, both means read "nan%", every grouped
    view but the deliveries-over-time view is an empty table, the
    deliveries-over-time view is skipped, and the exception table and the
    detailed table are empty. *)
Theorem empty_filtered_run_completes :
  forall (float_str : float -> string) (date_str : list datetime -> Z -> string)
         (r : Row) (rs : list Row) (s : Session),
    filtered (r :: rs) (selected_region (r :: rs) s) (status (r :: rs) s)
             (selected_week (r :: rs) s) = [] ->
    exists p,
      dashboard float_str date_str (r :: rs) s = py.Ok p
      /\ page.deliveries p = 0%nat
      /\ page.total_beneficiaries p = 0
      /\ page.avg_capacity_utilisation p = "nan%"%string
      /\ page.avg_return p = "nan%"%string
      /\ page.trips_df p = []
      /\ page.status_branch_df p = []
      /\ page.time_df p = None
      /\ page.week_df p = []
      /\ page.capacity_branch_df p = []
      /\ page.vehicle_df p = []
      /\ page.vehicle_load_tonnes p = []
      /\ page.urgency_df p = []
      /\ page.cargo_df p = []
      /\ page.cargo_branch_df p = []
      /\ page.subcargo_df p = []
      /\ page.low_capacity p = []
      /\ page.filtered p = [].
Proof.
  intros float_str date_str r rs s Hf.
  unfold dashboard.
  change (getitem (load_data (r :: rs)) "region") with (py.Ok (r :: rs)).
  cbv beta iota zeta delta [py.bind]. rewrite Hf.
  change (total_beneficiaries []) with (py.Ok 0).
  cbv beta iota. eexists. split; [reflexivity |].
  repeat split.
Qed.

(** The statement above on a one-row table with every status deselected. *)
Lemma empty_filtered_run_completes_witness :
  exists p,
    dashboard (fun _ => EmptyString) (fun _ _ => EmptyString)
      [delivery (Some "B1") (Some "North") (Some "Delivered") (Some "W1")
                80%float]%string
      {| region_pick := None; status_pick := Some []; week_pick := None |}
    = py.Ok p
    /\ page.deliveries p = 0%nat
    /\ page.total_beneficiaries p = 0
    /\ page.avg_capacity_utilisation p = "nan%"%string
    /\ page.avg_return p = "nan%"%string
    /\ page.trips_df p = []
    /\ page.status_branch_df p = []
    /\ page.time_df p = None
    /\ page.week_df p = []
    /\ page.capacity_branch_df p = []
    /\ page.vehicle_df p = []
    /\ page.vehicle_load_tonnes p = []
    /\ page.urgency_df p = []
    /\ page.cargo_df p = []
    /\ page.cargo_branch_df p = []
    /\ page.subcargo_df p = []
    /\ page.low_capacity p = []
    /\ page.filtered p = [].
Proof.
  apply (empty_filtered_run_completes
           (fun _ => EmptyString) (fun _ _ => EmptyString)
           (delivery (Some "B1") (Some "North") (Some "Delivered") (Some "W1")
                     80%float)%string
           []
           {| region_pick := None; status_pick := Some []; week_pick := None |}).
  reflexivity.
Defined.

(** ** The reader on what the writer wrote *)

Lemma run_app (r : csv.reader) (s t : list ascii) :
  run r (s ++ t) = run (run r s) t.
Proof. unfold run. apply fold_left_app. Qed.

Lemma run_cons (r : csv.reader) (c : ascii) (s : list ascii) :
  run r (c :: s) = run (advance r c) s.
Proof. reflexivity. Qed.

(** A text without carriage return is read line by line as [run] reads
    it. *)
Lemma feed_run (s rest : list ascii) (r : csv.reader) (l : csv.line) :
  no_cr s = true -> l <> csv.AfterCR ->
  csv.feed r l (s ++ csv.LF :: rest)
  = csv.feed (run r (s ++ [csv.LF])) csv.Fresh rest.
Proof.
  revert r l. induction s as [|c s IH]; intros r l Hs Hl.
  - reflexivity.
  - simpl in Hs. apply andb_true_iff in Hs. destruct Hs as [Hc Hs].
    apply negb_true_iff in Hc.
    change ((c :: s) ++ csv.LF :: rest) with (c :: (s ++ csv.LF :: rest)).
    change ((c :: s) ++ [csv.LF]) with (c :: (s ++ [csv.LF])).
    rewrite run_cons. unfold advance. simpl csv.feed.
    destruct (Ascii.eqb c csv.LF) eqn:Elf.
    + apply IH; [exact Hs | discriminate].
    + rewrite Hc.
      destruct l; try contradiction; apply IH; try exact Hs; discriminate.
Qed.

Lemma ordinary_spec (c : ascii) :
  ordinary c = true ->
  Ascii.eqb c csv.comma = false /\ Ascii.eqb c csv.dquote = false
  /\ Ascii.eqb c csv.LF = false /\ Ascii.eqb c csv.CR = false.
Proof.
  unfold ordinary, csv.special. rewrite andb_true_iff, !negb_true_iff.
  rewrite !orb_false_iff. tauto.
Qed.

Lemma run_in_field (s : list ascii) (r : csv.reader) :
  forallb ordinary s = true -> csv.st r = csv.InField ->
  run r s = reader_at csv.InField (csv.fld r ++ s) r.
Proof.
  revert r. induction s as [|c s IH]; intros r Hs Hst.
  - simpl. rewrite app_nil_r. destruct r; simpl in *. subst. reflexivity.
  - simpl in Hs. apply andb_true_iff in Hs. destruct Hs as [Hc Hs].
    destruct (ordinary_spec c Hc) as [Hco [Hq [Hlf Hcr]]].
    rewrite run_cons.
    assert (E : advance r c = reader_at csv.InField (csv.fld r ++ [c]) r).
    { unfold advance, csv.step, csv.newline. rewrite Hlf, Hst, Hcr, Hco.
      simpl. destruct r; simpl in *. subst. reflexivity. }
    rewrite E, IH; [| exact Hs | reflexivity].
    unfold reader_at. simpl. rewrite <- app_assoc. reflexivity.
Qed.

Lemma run_unquoted (s : list ascii) (r : csv.reader) :
  forallb ordinary s = true -> s <> [] -> at_field r ->
  run r s = reader_at csv.InField s r.
Proof.
  intros Hs Hne [Hst Hfld]. destruct s as [|c s]; [contradiction |].
  simpl in Hs. apply andb_true_iff in Hs. destruct Hs as [Hc Hs].
  destruct (ordinary_spec c Hc) as [Hco [Hq [Hlf Hcr]]].
  rewrite run_cons.
  assert (E : advance r c = reader_at csv.InField [c] r).
  { unfold advance, csv.step, csv.start_field, csv.newline.
    rewrite Hlf, Hcr, Hq, Hco.
    destruct Hst as [Hst | Hst]; rewrite Hst; simpl;
      unfold csv.goto, csv.add_char, reader_at; simpl; rewrite Hfld;
      reflexivity. }
  rewrite E, run_in_field; [reflexivity | exact Hs | reflexivity].
Qed.

Lemma run_escape (s : list ascii) (r : csv.reader) :
  csv.st r = csv.InQuoted ->
  run r (csv.escape s) = reader_at csv.InQuoted (csv.fld r ++ s) r.
Proof.
  revert r. induction s as [|c s IH]; intros r Hst.
  - simpl. rewrite app_nil_r. destruct r; simpl in *. subst. reflexivity.
  - simpl.
    assert (E : forall t,
               run r ((if Ascii.eqb c csv.dquote
                       then csv.dquote :: csv.dquote :: csv.escape s
                       else c :: csv.escape s) ++ t)
               = run (reader_at csv.InQuoted (csv.fld r ++ [c]) r)
                     (csv.escape s ++ t)).
    { intro t. destruct (Ascii.eqb c csv.dquote) eqn:Eq.
      - apply Ascii.eqb_eq in Eq. subst c. simpl app.
        rewrite !run_cons. f_equal.
        destruct r as [st0 f0 rec0 d0]. simpl in Hst. subst st0.
        reflexivity.
      - simpl app. rewrite run_cons. f_equal.
        destruct r as [st0 f0 rec0 d0]. simpl in Hst. subst st0.
        unfold advance, csv.step. simpl. rewrite Eq.
        destruct (Ascii.eqb c csv.LF); reflexivity. }
    specialize (E []). rewrite !app_nil_r in E. rewrite E.
    rewrite IH; [| reflexivity].
    unfold reader_at. simpl. rewrite <- app_assoc. reflexivity.
Qed.

Lemma run_quoted (s : list ascii) (r : csv.reader) :
  at_field r ->
  run r (csv.dquote :: csv.escape s ++ [csv.dquote])
  = reader_at csv.QuoteInQuoted s r.
Proof.
  intros [Hst Hfld]. rewrite run_cons.
  assert (E : advance r csv.dquote = reader_at csv.InQuoted [] r).
  { unfold advance, csv.step, csv.start_field.
    destruct Hst as [Hst | Hst]; rewrite Hst; simpl;
      unfold csv.goto, reader_at; rewrite Hfld; reflexivity. }
  rewrite E, run_app, run_escape; [| reflexivity].
  reflexivity.
Qed.

Lemma unquoted_ordinary (s : list ascii) :
  existsb csv.special s = false -> no_cr s = true ->
  forallb ordinary s = true.
Proof.
  induction s as [|c s IH]; simpl; intros Hsp Hcr.
  - reflexivity.
  - apply orb_false_iff in Hsp. destruct Hsp as [Hc Hsp].
    apply andb_true_iff in Hcr. destruct Hcr as [Hc' Hcr].
    unfold ordinary at 1. rewrite Hc, Hc', (IH Hsp Hcr). reflexivity.
Qed.

(** What the reader holds once a field has been read: one of the states in
    which a comma or a line end closes the field. *)
Lemma run_field (s : list ascii) (r : csv.reader) :
  no_cr s = true -> at_field r ->
  exists r',
    run r (csv.field s) = r'
    /\ csv.fld r' = s /\ csv.rec r' = csv.rec r /\ csv.done r' = csv.done r
    /\ (csv.st r' = csv.InField
        \/ csv.st r' = csv.QuoteInQuoted
        \/ (csv.field s = [] /\ csv.st r' = csv.st r)).
Proof.
  intros Hcr Hat. unfold csv.field.
  destruct (existsb csv.special s) eqn:Esp.
  - rewrite (run_quoted s r Hat). eexists. split; [reflexivity |].
    simpl. intuition.
  - destruct s as [|c s].
    + exists r. destruct Hat as [_ Hfld]. simpl. intuition.
    + rewrite (run_unquoted (c :: s) r);
        [| apply unquoted_ordinary; assumption | discriminate | exact Hat].
      eexists. split; [reflexivity |]. simpl. intuition.
Qed.

Lemma field_then_comma (s rest : list ascii) (r : csv.reader) :
  no_cr s = true -> at_field r ->
  run r (csv.field s ++ csv.comma :: rest)
  = run {| csv.st := csv.StartField; csv.fld := [];
           csv.rec := csv.rec r ++ [s]; csv.done := csv.done r |} rest.
Proof.
  intros Hcr Hat.
  destruct (run_field s r Hcr Hat) as [r' [E [Hf [Hr [Hd Hst]]]]].
  rewrite run_app, E, run_cons. f_equal.
  destruct Hat as [Hat _].
  destruct r' as [st' f' rec' d']. simpl in *. subst f' rec' d'.
  destruct Hst as [-> | [-> | [_ ->]]]; try reflexivity.
  destruct Hat as [-> | ->]; reflexivity.
Qed.

Lemma field_then_lf (s rest : list ascii) (r : csv.reader) :
  no_cr s = true -> at_field r ->
  csv.st r = csv.StartField \/ csv.field s <> [] ->
  run r (csv.field s ++ csv.LF :: rest)
  = run {| csv.st := csv.StartRecord; csv.fld := []; csv.rec := [];
           csv.done := csv.done r ++ [csv.rec r ++ [s]] |} rest.
Proof.
  intros Hcr Hat Hne.
  destruct (run_field s r Hcr Hat) as [r' [E [Hf [Hr [Hd Hst]]]]].
  rewrite run_app, E, run_cons. f_equal.
  destruct r' as [st' f' rec' d']. simpl in *. subst f' rec' d'.
  destruct Hst as [-> | [-> | [Hempty ->]]]; try reflexivity.
  destruct Hne as [-> | Hne]; [reflexivity | contradiction].
Qed.

Lemma field_nonempty (s : list ascii) : s <> [] -> csv.field s <> [].
Proof.
  unfold csv.field. destruct (existsb csv.special s); [discriminate | auto].
Qed.

Lemma run_record (fields : list (list ascii)) :
  forall (rest : list ascii) (r : csv.reader),
    Forall (fun s => no_cr s = true) fields -> fields <> [] -> at_field r ->
    csv.st r = csv.StartField \/ fields <> [ [] ] ->
    run r (csv.join (map csv.field fields) ++ csv.LF :: rest)
    = run {| csv.st := csv.StartRecord; csv.fld := []; csv.rec := [];
             csv.done := csv.done r ++ [csv.rec r ++ fields] |} rest.
Proof.
  induction fields as [|f fs IH]; intros rest r Hall Hne Hat Hst.
  - contradiction.
  - inversion Hall as [|? ? Hf Hfs]; subst. destruct fs as [|f2 fs].
    + simpl. apply field_then_lf; [exact Hf | exact Hat |].
      destruct Hst as [Hst | Hst]; [left; exact Hst | right].
      apply field_nonempty. intro E. apply Hst. rewrite E. reflexivity.
    + change (csv.join (map csv.field (f :: f2 :: fs)))
        with (csv.field f ++ csv.comma :: csv.join (map csv.field (f2 :: fs))).
      rewrite <- app_assoc. simpl app at 1.
      change ((csv.comma :: csv.join (map csv.field (f2 :: fs)))
              ++ csv.LF :: rest)
        with (csv.comma :: (csv.join (map csv.field (f2 :: fs))
                            ++ csv.LF :: rest)).
      rewrite (field_then_comma f _ r Hf Hat).
      rewrite IH; [| exact Hfs | discriminate | split; simpl; auto
                   | left; reflexivity].
      simpl. rewrite <- app_assoc. reflexivity.
Qed.

Lemma run_writerow (fields : list (list ascii)) (rest : list ascii)
    (r : csv.reader) :
  Forall (fun s => no_cr s = true) fields ->
  csv.st r = csv.StartRecord -> csv.fld r = [] -> csv.rec r = [] ->
  run r (csv.writerow fields ++ rest)
  = run {| csv.st := csv.StartRecord; csv.fld := []; csv.rec := [];
           csv.done := csv.done r ++ [fields] |} rest.
Proof.
  intros Hall Hst Hfld Hrec.
  assert (Hgen : fields <> [] -> fields <> [ [] ] ->
                 run r ((csv.join (map csv.field fields) ++ [csv.LF]) ++ rest)
                 = run {| csv.st := csv.StartRecord; csv.fld := [];
                          csv.rec := [];
                          csv.done := csv.done r ++ [fields] |} rest).
  { intros H1 H2. rewrite <- app_assoc. simpl app.
    rewrite run_record; [rewrite Hrec; reflexivity | exact Hall | exact H1
                        | split; auto | right; exact H2]. }
  destruct r as [st0 f0 rec0 d0]. simpl in Hst, Hfld, Hrec. subst.
  destruct fields as [|[|c f] [|f2 fs]].
  - reflexivity.
  - reflexivity.
  - apply Hgen; discriminate.
  - apply Hgen; discriminate.
  - apply Hgen; discriminate.
Qed.

Lemma no_cr_app (s t : list ascii) :
  no_cr (s ++ t) = no_cr s && no_cr t.
Proof. unfold no_cr. apply forallb_app. Qed.

Lemma no_cr_escape (s : list ascii) : no_cr s = true -> no_cr (csv.escape s) = true.
Proof.
  induction s as [|c s IH]; simpl; intro H.
  - reflexivity.
  - apply andb_true_iff in H. destruct H as [Hc Hs].
    destruct (Ascii.eqb c csv.dquote); simpl; rewrite ?Hc, (IH Hs);
      reflexivity.
Qed.

Lemma no_cr_field (s : list ascii) : no_cr s = true -> no_cr (csv.field s) = true.
Proof.
  intro H. unfold csv.field. destruct (existsb csv.special s); [| exact H].
  change (csv.dquote :: csv.escape s ++ [csv.dquote])
    with ([csv.dquote] ++ csv.escape s ++ [csv.dquote]).
  rewrite !no_cr_app, (no_cr_escape s H). reflexivity.
Qed.

Lemma no_cr_join (fields : list (list ascii)) :
  Forall (fun s => no_cr s = true) fields ->
  no_cr (csv.join (map csv.field fields)) = true.
Proof.
  induction 1 as [|f fs Hf Hfs IH]; [reflexivity |].
  destruct fs as [|f2 fs].
  - simpl. apply no_cr_field, Hf.
  - change (csv.join (map csv.field (f :: f2 :: fs)))
      with (csv.field f ++ [csv.comma] ++ csv.join (map csv.field (f2 :: fs))).
    rewrite !no_cr_app, (no_cr_field f Hf), IH. reflexivity.
Qed.

Lemma writerow_body (fields : list (list ascii)) :
  Forall (fun s => no_cr s = true) fields ->
  exists body, csv.writerow fields = body ++ [csv.LF] /\ no_cr body = true.
Proof.
  intro Hall.
  assert (Hgen : exists body,
             csv.join (map csv.field fields) ++ [csv.LF] = body ++ [csv.LF]
             /\ no_cr body = true)
    by (eexists; split; [reflexivity | apply no_cr_join, Hall]).
  destruct fields as [|[|c f] [|f2 fs]]; try exact Hgen.
  exists [csv.dquote; csv.dquote]. split; reflexivity.
Qed.

Lemma feed_writerows (records : list (list (list ascii))) :
  forall r : csv.reader,
    Forall (Forall (fun s => no_cr s = true)) records ->
    csv.st r = csv.StartRecord -> csv.fld r = [] -> csv.rec r = [] ->
    csv.feed r csv.Fresh (csv.writerows records)
    = {| csv.st := csv.StartRecord; csv.fld := []; csv.rec := [];
         csv.done := csv.done r ++ records |}.
Proof.
  induction records as [|x records IH]; intros r Hall Hst Hfld Hrec.
  - simpl. rewrite app_nil_r. destruct r; simpl in *. subst. reflexivity.
  - inversion Hall as [|? ? Hx Hrest]; subst.
    destruct (writerow_body x Hx) as [body [Ebody Hbody]].
    change (csv.writerows (x :: records))
      with (csv.writerow x ++ csv.writerows records).
    rewrite Ebody, <- app_assoc. simpl app.
    rewrite feed_run; [| exact Hbody | discriminate].
    rewrite <- Ebody.
    pose proof (run_writerow x [] r Hx Hst Hfld Hrec) as E.
    rewrite app_nil_r in E. simpl in E. rewrite E.
    rewrite IH; [| exact Hrest | reflexivity | reflexivity | reflexivity].
    simpl. rewrite <- app_assoc. reflexivity.
Qed.

(** Records without carriage return are read back as they were written. *)
Lemma read_writerows (records : list (list (list ascii))) :
  Forall (Forall (fun s => no_cr s = true)) records ->
  csv.read (csv.writerows records) = Some records.
Proof.
  intro Hall. unfold csv.read.
  rewrite (feed_writerows records csv.start Hall); reflexivity.
Qed.

(** ** Cells written and read back *)

Lemma strings_back (l : list string) :
  map string_of_list_ascii (map list_ascii_of_string l) = l.
Proof.
  induction l as [|s l IH]; simpl.
  - reflexivity.
  - rewrite string_of_list_ascii_of_string, IH. reflexivity.
Qed.

Lemma read_text_cell (c : text) :
  text_ok c = true -> read_text (text_cell c) = c.
Proof.
  destruct c as [[|a s]|]; simpl; intro H; try reflexivity; discriminate.
Qed.

Lemma text_cell_no_cr (c : text) :
  text_ok c = true -> no_cr (list_ascii_of_string (text_cell c)) = true.
Proof.
  destruct c as [[|a s]|]; simpl; intro H; try reflexivity; try discriminate.
  exact H.
Qed.

Lemma plain_no_cr (s : string) :
  plain s = true -> no_cr (list_ascii_of_string s) = true.
Proof.
  unfold plain. destruct s as [|a s]; [discriminate |].
  generalize (list_ascii_of_string (String a s)). intros l H.
  induction l as [|c l IH]; simpl in *.
  - reflexivity.
  - apply andb_true_iff in H. destruct H as [Hc Hl].
    destruct (ordinary_spec c Hc) as [_ [_ [_ Hcr]]].
    rewrite Hcr, (IH Hl). reflexivity.
Qed.

Section RoundTrip.

Variable float_str : float -> string.
Variable float_parse : string -> option float.
Variable date_str : list datetime -> Z -> string.
Variable date_parse : string -> option Z.

Lemma read_number_cell (x : number) :
  number_ok float_str float_parse x = true ->
  read_number float_parse (number_cell float_str x) = Some x.
Proof.
  unfold number_ok, number_cell, read_number.
  destruct (PrimFloat.is_nan x) eqn:En; simpl.
  - intros _. rewrite (is_nan_nan x En). reflexivity.
  - rewrite andb_true_iff. intros [Hp Hr].
    destruct (float_str x) as [|a s]; [discriminate |].
    destruct (float_parse (String a s)) as [y|]; [| discriminate].
    apply FloatAxioms.Leibniz.eqb_spec in Hr. rewrite Hr. reflexivity.
Qed.

Lemma number_cell_no_cr (x : number) :
  number_ok float_str float_parse x = true ->
  no_cr (list_ascii_of_string (number_cell float_str x)) = true.
Proof.
  unfold number_ok, number_cell.
  destruct (PrimFloat.is_nan x); simpl; [reflexivity |].
  rewrite andb_true_iff. intros [Hp _]. apply plain_no_cr, Hp.
Qed.

Lemma read_date_cell (column : list datetime) (d : datetime) :
  date_ok date_str date_parse column d = true ->
  read_date date_parse (date_cell date_str column d) = Some d.
Proof.
  unfold date_ok, date_cell, read_date. destruct d as [t|]; [| reflexivity].
  rewrite andb_true_iff. intros [Hp Hr].
  destruct (date_str column t) as [|a s]; [discriminate |].
  destruct (date_parse (String a s)) as [t'|]; [| discriminate].
  apply Z.eqb_eq in Hr. subst. reflexivity.
Qed.

Lemma date_cell_no_cr (column : list datetime) (d : datetime) :
  date_ok date_str date_parse column d = true ->
  no_cr (list_ascii_of_string (date_cell date_str column d)) = true.
Proof.
  unfold date_ok, date_cell. destruct d as [t|]; [| reflexivity].
  rewrite andb_true_iff. intros [Hp _]. apply plain_no_cr, Hp.
Qed.

Ltac split_row_ok H :=
  unfold row_ok in H;
  repeat (let H' := fresh "Hcell" in
          apply andb_true_iff in H; destruct H as [H H']).

Lemma read_row_cells (frame : list Row) (r : Row) :
  row_ok float_str float_parse date_str date_parse frame r = true ->
  read_row float_parse date_parse (cells float_str date_str frame r) = Some r.
Proof.
  intro H. split_row_ok H. unfold cells, read_row.
  rewrite !read_text_cell by assumption.
  rewrite !read_number_cell by assumption.
  rewrite !read_date_cell by assumption.
  destruct r; reflexivity.
Qed.

Lemma cells_no_cr (frame : list Row) (r : Row) :
  row_ok float_str float_parse date_str date_parse frame r = true ->
  Forall (fun s => no_cr s = true)
         (map list_ascii_of_string (cells float_str date_str frame r)).
Proof.
  intro H. split_row_ok H. unfold cells. simpl map.
  repeat constructor;
    first [ apply text_cell_no_cr; assumption
          | apply number_cell_no_cr; assumption
          | apply date_cell_no_cr; assumption ].
Qed.

Lemma read_rows_cells (frame g : list Row) :
  forallb (row_ok float_str float_parse date_str date_parse frame) g = true ->
  read_rows float_parse date_parse (map (cells float_str date_str frame) g)
  = Some g.
Proof.
  induction g as [|r g IH]; cbn [map read_rows forallb]; intro H.
  - reflexivity.
  - apply andb_true_iff in H. destruct H as [Hr Hg].
    rewrite (read_row_cells frame r Hr). cbn [obind].
    rewrite (IH Hg). reflexivity.
Qed.

Lemma records_no_cr (frame g : list Row) :
  forallb (row_ok float_str float_parse date_str date_parse frame) g = true ->
  Forall (Forall (fun s => no_cr s = true))
         (map (map list_ascii_of_string)
              (map (cells float_str date_str frame) g)).
Proof.
  induction g as [|r g IH]; simpl; intro H.
  - constructor.
  - apply andb_true_iff in H. destruct H as [Hr Hg].
    constructor; [apply cells_no_cr, Hr | apply IH, Hg].
Qed.

Lemma projection_no_cr :
  Forall (fun s => no_cr s = true) (map list_ascii_of_string projection).
Proof. repeat constructor. Qed.

(** A table every cell of which survives the export reads back as itself,
    under the header of the projection. *)
Lemma to_csv_reads_back (frame : list Row) :
  exportable float_str float_parse date_str date_parse frame = true ->
  read_csv float_parse date_parse (to_csv float_str date_str frame)
  = Some {| columns := projection; rows := frame |}.
Proof.
  intro H. unfold read_csv, to_csv.
  rewrite list_ascii_of_string_of_list_ascii.
  rewrite read_writerows.
  - change (map (map list_ascii_of_string)
                (projection :: map (cells float_str date_str frame) frame))
      with (map list_ascii_of_string projection
            :: map (map list_ascii_of_string)
                   (map (cells float_str date_str frame) frame)).
    cbv beta iota.
    rewrite (map_map (map list_ascii_of_string) (map string_of_list_ascii)).
    rewrite (map_ext _ (fun l => l) strings_back), map_id.
    rewrite (read_rows_cells frame frame H). cbn [obind].
    rewrite strings_back. reflexivity.
  - constructor; [exact projection_no_cr | apply records_no_cr, H].
Qed.

(** C4, as the code has it.  For every filtered table in which no text cell
    is the empty text or holds a carriage return, and whose numbers and
    dates are written in a plain form that reads back to the same value,
    the exported text read back is the filtered table: the same columns in
    the order of the query's projection, the same rows in the same order,
    the same cells.  The artifact is offered under the name
    "deliveries_filtered.csv" with the content type "text/csv". *)
Theorem export_reads_back :
  forall (df : list Row) (selected_region : text) (status : list text)
         (selected_week : text),
    let f := filtered df selected_region status selected_week in
    exportable float_str float_parse date_str date_parse f = true ->
    read_csv float_parse date_parse (to_csv float_str date_str f)
    = Some {| columns := projection; rows := f |}
    /\ download_button float_str date_str f
       = (to_csv float_str date_str f, "deliveries_filtered.csv"%string,
          "text/csv"%string).
Proof.
  intros df g st w f H. split.
  - apply to_csv_reads_back, H.
  - reflexivity.
Qed.

End RoundTrip.

(** The statement above on [sample], whose route is quoted for its comma
    and quotes and whose driver name is quoted for its line feed. *)
Lemma export_reads_back_witness :
  let f := filtered [sample] (Some "North"%string) [Some "Delivered"%string]
                    (Some "W1"%string) in
  exportable py.format_1f sample_float_parse sample_date_str
             sample_date_parse f = true
  /\ (read_csv sample_float_parse sample_date_parse
               (to_csv py.format_1f sample_date_str f)
      = Some {| columns := projection; rows := f |}
      /\ download_button py.format_1f sample_date_str f
         = (to_csv py.format_1f sample_date_str f,
            "deliveries_filtered.csv"%string, "text/csv"%string)).
Proof.
  split.
  - vm_compute. reflexivity.
  - apply (export_reads_back py.format_1f sample_float_parse sample_date_str
             sample_date_parse [sample] (Some "North"%string)
             [Some "Delivered"%string] (Some "W1"%string)).
    vm_compute. reflexivity.
Defined.

(** C4, the claim as stated, fails.  A filtered row whose route is the
    empty text is exported exactly like the same row without route, and
    the export reads back as the row without route, whatever the texts of
    numbers and dates.  And a route that holds a carriage return is
    written without quotes, so that the export reads back as records of
    the wrong width, that is, as no table. *)
Lemma export_loses_empty_text :
  let r := delivery (Some "B1"%string) (Some "North"%string)
                    (Some "Delivered"%string) (Some "W1"%string)
                    PrimFloat.nan in
  let r_empty := with_route (Some EmptyString) r in
  let r_cr := with_route (Some ("a" ++ carriage_return ++ "b")%string) r in
  (filtered [r_empty] (Some "North"%string) [Some "Delivered"%string]
            (Some "W1"%string)
   = [r_empty]
   /\ col.route r_empty = Some EmptyString /\ col.route r = None)
  /\ (forall float_str date_str,
        to_csv float_str date_str [r_empty] = to_csv float_str date_str [r])
  /\ (forall float_str date_str float_parse date_parse,
        read_csv float_parse date_parse (to_csv float_str date_str [r_empty])
        = Some {| columns := projection; rows := [r] |})
  /\ (forall float_str date_str float_parse date_parse,
        read_csv float_parse date_parse (to_csv float_str date_str [r_cr])
        = None).
Proof.
  cbv zeta. repeat split; intros; vm_compute; reflexivity.
Qed.

(** * Further properties of the script *)

(** ** Keys and occurrences *)

Lemma keqb_string (a b : string) : keqb a b = String.eqb a b.
Proof.
  destruct (String.eqb_spec a b) as [E | E].
  - apply keqb_true. exact E.
  - destruct (keqb a b) eqn:K; [| reflexivity].
    apply keqb_true in K. contradiction.
Qed.

Lemma keqb_pair {A B} `{Key A} `{Key B} (a c : A) (b d : B) :
  keqb (a, b) (c, d) = keqb a c && keqb b d.
Proof.
  unfold keqb. simpl. unfold pair_cmp. simpl.
  destruct (kcmp a c); reflexivity.
Qed.

Lemma occurrences_map {K} `{Key K} (key : Row -> option K) (k : K)
    (f : list Row) :
  occurrences k (map key f)
  = List.length (filter (fun r => match key r with
                                  | Some k' => keqb k' k
                                  | None => false
                                  end) f).
Proof.
  unfold occurrences. induction f as [|r f IH]; simpl.
  - reflexivity.
  - destruct (key r) as [k'|]; [destruct (keqb k' k) |]; simpl; rewrite IH;
      reflexivity.
Qed.

Lemma occurrences_rows_with (key : Row -> text) (v : string) (f : list Row) :
  occurrences v (map key f) = rows_with key v f.
Proof.
  rewrite (occurrences_map (K:=string) key v f). unfold rows_with. f_equal.
  apply filter_ext. intro r. destruct (key r) as [x|]; simpl.
  - apply keqb_string.
  - reflexivity.
Qed.

Lemma occurrences_rows_with2 (ka kb : Row -> text) (a b : string)
    (f : list Row) :
  occurrences (a, b) (map (fun r => both (ka r) (kb r)) f)
  = rows_with2 ka kb a b f.
Proof.
  rewrite (occurrences_map (fun r => both (ka r) (kb r)) (a, b) f).
  unfold rows_with2. f_equal.
  apply filter_ext. intro r.
  destruct (ka r) as [x|], (kb r) as [y|]; simpl; try reflexivity.
  - rewrite keqb_pair, !keqb_string. reflexivity.
  - rewrite andb_false_r. reflexivity.
Qed.

Lemma occurrences_positive {K} `{Key K} (k : K) (keys : list (option K)) :
  (0 < occurrences k keys)%nat -> In (Some k) keys.
Proof.
  unfold occurrences. induction keys as [|[k'|] keys IH]; simpl.
  - lia.
  - destruct (keqb k' k) eqn:E; simpl; intro Hn.
    + left. apply keqb_true in E. congruence.
    + right. apply IH, Hn.
  - intro Hn. right. apply IH, Hn.
Qed.

Lemma groupby_size_constant {K} `{Key K} (k : K) (keys : list (option K)) :
  keys <> [] -> Forall (fun o => o = Some k) keys ->
  pd.groupby_size keys = [(k, List.length keys)].
Proof.
  assert (Hfold : forall keys n,
             Forall (fun o => o = Some k) keys ->
             fold_left (fun g o => match o with
                                   | Some k => pd.bump k g
                                   | None => g
                                   end) keys [(k, n)]
             = [(k, (n + List.length keys)%nat)]).
  { clear keys. induction keys as [|o keys IH]; intros n Hall; simpl.
    - rewrite Nat.add_0_r. reflexivity.
    - inversion Hall as [|? ? Ho Hrest]; subst. simpl.
      rewrite kcmp_refl, (IH (S n) Hrest). f_equal. f_equal. lia. }
  intros Hne Hall. destruct keys as [|o keys]; [contradiction |].
  inversion Hall as [|? ? Ho Hrest]; subst.
  unfold pd.groupby_size. simpl. apply (Hfold keys 1%nat Hrest).
Qed.

(** ** The filter and the views that group on a filtered column *)

Lemma filtered_keeps (df : list Row) (g : text) (st : list text) (w : text)
    (r : Row) :
  In r (filtered df g st w) ->
  In r df /\ pd.eq (col.region r) g = true
  /\ pd.isin (col.status r) st = true /\ pd.eq (col.week_range r) w = true.
Proof.
  unfold filtered, keep. rewrite filter_In, !andb_true_iff. tauto.
Qed.

Lemma pd_eq_Some (c v : text) : pd.eq c v = true -> c = v /\ c <> None.
Proof.
  destruct c as [a|], v as [b|]; simpl; try discriminate.
  rewrite String.eqb_eq. intros ->. split; [reflexivity | discriminate].
Qed.

(** X2. The deliveries-by-week view of a filtered table has a single line:
    every filtered row has the selected week range, so the view is the
    selected week with the number of filtered rows, or no line at all when
    the filtered table is empty. *)
Theorem week_df_single_line :
  forall (df : list Row) (selected_region : text) (status : list text)
         (selected_week : text),
    let f := filtered df selected_region status selected_week in
    week_df f = match f, selected_week with
                | _ :: _, Some w => [(w, deliveries f)]
                | _, _ => []
                end.
Proof.
  intros df g st w f.
  assert (Hall : Forall (fun o => o = w) (map col.week_range f)).
  { apply Forall_forall. intros o Ho. apply in_map_iff in Ho.
    destruct Ho as [r [<- Hr]]. apply filtered_keeps in Hr.
    destruct Hr as [_ [_ [_ Hw]]]. apply pd_eq_Some in Hw. tauto. }
  unfold week_df, deliveries, py.len.
  destruct f as [|r f'] eqn:Ef; [reflexivity |].
  destruct w as [w'|].
  - rewrite (groupby_size_constant w' _); [| discriminate | exact Hall].
    rewrite length_map. reflexivity.
  - exfalso. inversion Hall as [|? ? Hr _]; subst.
    assert (Hin : In r (filtered df g st None)) by (fold f; rewrite Ef; left; reflexivity).
    apply filtered_keeps in Hin. destruct Hin as [_ [_ [_ Hw]]].
    rewrite pd_eq_missing_value in Hw. discriminate.
Qed.

(** X3. Every line of the cargo-type-by-region view of a filtered table
    carries the selected region, with for its cargo type the number of
    filtered rows of that cargo type: the view never shows a second
    region. *)
Theorem cargo_df_only_selected_region :
  forall (df : list Row) (selected_region : text) (status : list text)
         (selected_week : text),
    let f := filtered df selected_region status selected_week in
    Forall (fun line : string * string * nat =>
              Some (snd (fst line)) = selected_region
              /\ snd line = rows_with col.cargo_type (fst (fst line)) f)
           (cargo_df f).
Proof.
  intros df g st w f. apply Forall_forall. intros [[c g'] n] Hline.
  unfold cargo_df in Hline. apply groupby_size_In in Hline.
  destruct Hline as [Hn Hpos]. simpl.
  assert (Hregion : forall r, In r f -> col.region r = g).
  { intros r Hr. apply filtered_keeps in Hr.
    destruct Hr as [_ [Hg _]]. apply pd_eq_Some in Hg. tauto. }
  assert (Hg : Some g' = g).
  { rewrite Hn in Hpos. apply occurrences_positive in Hpos.
    apply in_map_iff in Hpos. destruct Hpos as [r [Hkey Hr]].
    rewrite <- (Hregion r Hr).
    destruct (col.cargo_type r), (col.region r); simpl in Hkey;
      congruence. }
  split; [exact Hg |].
  rewrite Hn, occurrences_rows_with2. unfold rows_with2, rows_with. f_equal.
  apply filter_ext_in. intros r Hr.
  rewrite (Hregion r Hr), <- Hg, pd_same_refl, andb_true_r. reflexivity.
Qed.

Lemma pair_view (ka kb : Row -> text) (f : list Row) :
  let view := pd.groupby_size (map (fun r => both (ka r) (kb r)) f) in
  StronglySorted klt (map fst view)
  /\ forall a b n,
       In (a, b, n) view <-> n = rows_with2 ka kb a b f /\ (0 < n)%nat.
Proof.
  split.
  - apply groupby_size_sorted.
  - intros a b n. rewrite groupby_size_In, occurrences_rows_with2.
    reflexivity.
Qed.

(** The order of two pairs of keys: by the first key, then by the second. *)
Lemma klt_pair {A B} `{Key A} `{Key B} (a c : A) (b d : B) :
  klt (a, b) (c, d) <-> klt a c \/ (a = c /\ klt b d).
Proof.
  unfold klt. simpl. unfold pair_cmp. simpl.
  destruct (kcmp a c) eqn:E.
  - apply kcmp_eq in E. subst. split.
    + intro Hb. right. split; [reflexivity | exact Hb].
    + intros [Hl | [_ Hb]]; [discriminate | exact Hb].
  - split; [intros _; left; reflexivity | reflexivity].
  - split; [discriminate |].
    intros [Hl | [-> _]]; [discriminate |].
    rewrite kcmp_refl in E. discriminate.
Qed.

(** X4. Each of the four views grouped on two columns (status per branch,
    cargo type per region, cargo type per branch, cargo subtype per branch)
    lists its lines in strictly ascending order of the pair of keys, and a
    line is in the view if and only if its count is the number of filtered
    rows with that pair of values and is positive; a row with either value
    missing is counted in no line. *)
Theorem two_key_views_count_pairs :
  forall f : list Row,
    (StronglySorted klt (map fst (status_branch_df f))
     /\ forall b s n,
          In (b, s, n) (status_branch_df f)
          <-> n = rows_with2 col.branch col.status b s f /\ (0 < n)%nat)
    /\ (StronglySorted klt (map fst (cargo_df f))
        /\ forall c g n,
             In (c, g, n) (cargo_df f)
             <-> n = rows_with2 col.cargo_type col.region c g f
                 /\ (0 < n)%nat)
    /\ (StronglySorted klt (map fst (cargo_branch_df f))
        /\ forall b c n,
             In (b, c, n) (cargo_branch_df f)
             <-> n = rows_with2 col.branch col.cargo_type b c f
                 /\ (0 < n)%nat)
    /\ (StronglySorted klt (map fst (subcargo_df f))
        /\ forall b c n,
             In (b, c, n) (subcargo_df f)
             <-> n = rows_with2 col.branch col.cargo_subtype b c f
                 /\ (0 < n)%nat).
Proof.
  intro f. split; [| split; [| split]].
  - exact (pair_view col.branch col.status f).
  - exact (pair_view col.cargo_type col.region f).
  - exact (pair_view col.branch col.cargo_type f).
  - exact (pair_view col.branch col.cargo_subtype f).
Qed.

(** ** The sidebar and the filter together *)

(** X5. With the status selector left at its default, the status predicate
    excludes no row: the filtered table is exactly the rows of the loaded
    table with the selected region and week range, rows without status
    included. *)
Theorem default_status_excludes_no_row :
  forall (df : list Row) (region week : string) (r : Row),
    In r (filtered df (Some region) (status df first_run) (Some week))
    <-> In r df /\ col.region r = Some region
        /\ col.week_range r = Some week.
Proof.
  intros df g w r. rewrite filtered_In. unfold selected. split.
  - tauto.
  - intros [Hr [Hg Hw]]. repeat split; auto.
    apply status_options_In. exists r. auto.
Qed.

Lemma selectbox_In {A} (options : list A) (pick : option nat) (a : A) :
  st.selectbox options pick = Some a -> In a options.
Proof.
  unfold st.selectbox. destruct pick as [i|].
  - apply nth_error_In.
  - destruct options; simpl; [discriminate |].
    intros [= ->]. left. reflexivity.
Qed.

Lemma multiselect_In {A} (options : list A) (pick : option (list nat)) (a : A) :
  In a (st.multiselect options options pick) -> In a options.
Proof.
  unfold st.multiselect. destruct pick as [picks|]; [| auto].
  rewrite in_flat_map. intros [i [_ Ha]].
  destruct (nth_error options i) eqn:E; [| contradiction].
  destruct Ha as [<- | []]. eapply nth_error_In, E.
Qed.

Lemma filtered_without_week (df : list Row) (selected_region : text)
    (status : list text) :
  filtered df selected_region status None = [].
Proof.
  unfold filtered. induction df as [|r df IH]; simpl.
  - reflexivity.
  - unfold keep at 1. rewrite pd_eq_missing_value, andb_false_r. exact IH.
Qed.

(** X6. Whatever the session holds, the selections come from the table:
    a selected region is the region of some row, a selected week range the
    week range of some row, and every selected status the status cell of
    some row.  When a selector has no option, because no row has a region
    or none has a week range, it returns nothing and the filtered table is
    empty. *)
Theorem selections_are_observed :
  forall (df : list Row) (s : Session),
    match selected_region df s with
    | Some g => exists r, In r df /\ col.region r = Some g
    | None => filtered df (selected_region df s) (status df s)
                       (selected_week df s) = []
    end
    /\ match selected_week df s with
       | Some w => exists r, In r df /\ col.week_range r = Some w
       | None => filtered df (selected_region df s) (status df s)
                          (selected_week df s) = []
       end
    /\ forall c, In c (status df s) -> exists r, In r df /\ col.status r = c.
Proof.
  intros df s. split; [| split].
  - destruct (selected_region df s) as [g|] eqn:E.
    + apply regions_In. unfold selected_region in E.
      eapply selectbox_In, E.
    + apply filtered_without_region.
  - destruct (selected_week df s) as [w|] eqn:E.
    + apply weeks_In. unfold selected_week in E. eapply selectbox_In, E.
    + apply filtered_without_week.
  - intros c Hc. apply status_options_In. unfold status in Hc.
    eapply multiselect_In, Hc.
Qed.

(** ** Missing numbers in the metrics *)

Lemma sum_from (cells : list number) (acc : number) :
  fold_left (fun acc x => if PrimFloat.is_nan x then acc else (acc + x)%float)
            (filter (fun x => negb (PrimFloat.is_nan x)) cells) acc
  = fold_left (fun acc x => if PrimFloat.is_nan x then acc else (acc + x)%float)
              cells acc.
Proof.
  revert acc. induction cells as [|x cells IH]; intro acc; simpl.
  - reflexivity.
  - destruct (PrimFloat.is_nan x) eqn:E; simpl; [| rewrite E]; apply IH.
Qed.

Lemma filter_twice {A} (p : A -> bool) (l : list A) :
  filter p (filter p l) = filter p l.
Proof.
  induction l as [|x l IH]; simpl.
  - reflexivity.
  - destruct (p x) eqn:E; simpl; [rewrite E, IH |]; auto.
Qed.

Lemma mean_skips_nan (cells : list number) :
  pd.mean (filter (fun x => negb (PrimFloat.is_nan x)) cells) = pd.mean cells.
Proof.
  unfold pd.mean, pd.count, pd.sum. rewrite filter_twice, sum_from.
  reflexivity.
Qed.

Lemma sum_skips_nan (cells : list number) :
  pd.sum (filter (fun x => negb (PrimFloat.is_nan x)) cells) = pd.sum cells.
Proof. apply sum_from. Qed.

Lemma map_filter {A B} (h : A -> B) (p : B -> bool) (l : list A) :
  filter p (map h l) = map h (filter (fun a => p (h a)) l).
Proof.
  induction l as [|a l IH]; simpl.
  - reflexivity.
  - destruct (p (h a)); simpl; rewrite IH; reflexivity.
Qed.

Lemma sum_all_nan (cells : list number) :
  Forall (fun x => PrimFloat.is_nan x = true) cells ->
  pd.sum cells = 0%float /\ pd.count cells = 0%nat.
Proof.
  intro Hall. unfold pd.sum, pd.count.
  assert (Hfold : forall acc,
             fold_left (fun acc x => if PrimFloat.is_nan x then acc
                                     else (acc + x)%float) cells acc = acc).
  { induction Hall as [|x cells Hx _ IH]; intro acc; simpl.
    - reflexivity.
    - rewrite Hx. apply IH. }
  split; [apply Hfold |]. clear Hfold.
  induction Hall as [|x cells Hx _ IH]; simpl.
  - reflexivity.
  - rewrite Hx. simpl. exact IH.
Qed.

Lemma filter_Forall {A} (p : A -> bool) (l : list A) :
  Forall (fun a => p a = true) (filter p l).
Proof.
  apply Forall_forall. intros a Ha. apply filter_In in Ha. tauto.
Qed.

(** X1. The two mean metrics ignore missing numbers: each is the metric of
    the filtered rows that have the number, and over rows that all lack it
    the metric reads "nan%", whether or not there are such rows. *)
Theorem mean_metrics_skip_missing :
  forall f : list Row,
    avg_capacity_utilisation f
    = avg_capacity_utilisation
        (filter (fun r => negb (PrimFloat.is_nan (col.capacity_utilisation r))) f)
    /\ avg_return f
       = avg_return
           (filter (fun r => negb (PrimFloat.is_nan (col.return_percentage r))) f)
    /\ avg_capacity_utilisation
         (filter (fun r => PrimFloat.is_nan (col.capacity_utilisation r)) f)
       = "nan%"%string
    /\ avg_return
         (filter (fun r => PrimFloat.is_nan (col.return_percentage r)) f)
       = "nan%"%string.
Proof.
  intro f. unfold avg_capacity_utilisation, avg_return.
  assert (Hnan : forall (key : Row -> number),
             pd.mean (map key (filter (fun r => PrimFloat.is_nan (key r)) f))
             = PrimFloat.nan).
  { intro key. unfold pd.mean.
    destruct (sum_all_nan
                (map key (filter (fun r => PrimFloat.is_nan (key r)) f)))
      as [_ Hc].
    - apply Forall_forall. intros x Hx. apply in_map_iff in Hx.
      destruct Hx as [r [<- Hr]]. apply filter_In in Hr. tauto.
    - rewrite Hc. reflexivity. }
  repeat split.
  - rewrite <- (mean_skips_nan (map col.capacity_utilisation f)), map_filter.
    reflexivity.
  - rewrite <- (mean_skips_nan (map col.return_percentage f)), map_filter.
    reflexivity.
  - exact (f_equal (fun m => (py.format_1f m ++ "%")%string)
                   (Hnan col.capacity_utilisation)).
  - exact (f_equal (fun m => (py.format_1f m ++ "%")%string)
                   (Hnan col.return_percentage)).
Qed.

(** X9. The beneficiary total ignores missing counts: it is the total over
    the filtered rows that have a count, and over rows that all lack one it
    is 0 and raises nothing. *)
Theorem total_beneficiaries_skips_missing :
  forall f : list Row,
    total_beneficiaries f
    = total_beneficiaries
        (filter (fun r => negb (PrimFloat.is_nan (col.beneficiaries_count r))) f)
    /\ total_beneficiaries
         (filter (fun r => PrimFloat.is_nan (col.beneficiaries_count r)) f)
       = py.Ok 0.
Proof.
  intro f. unfold total_beneficiaries. split.
  - rewrite <- (sum_skips_nan (map col.beneficiaries_count f)), map_filter.
    reflexivity.
  - destruct (sum_all_nan
                (map col.beneficiaries_count
                     (filter (fun r => PrimFloat.is_nan
                                         (col.beneficiaries_count r)) f)))
      as [Hs _].
    + apply Forall_forall. intros x Hx. apply in_map_iff in Hx.
      destruct Hx as [r [<- Hr]]. apply filter_In in Hr. tauto.
    + rewrite Hs. reflexivity.
Qed.

(** ** Missing values in the exception table *)

Lemma nan_below_nothing (x y : float) :
  PrimFloat.is_nan x = true -> PrimFloat.ltb x y = false.
Proof.
  intro H. rewrite (is_nan_nan x H), FloatAxioms.ltb_spec.
  change (Prim2SF PrimFloat.nan) with S754_nan. reflexivity.
Qed.

(** X10. Missing values in the exception table.  A filtered row without
    status is always listed, whatever its capacity utilisation; a row whose
    capacity utilisation is missing is listed only for its status, so that a
    delivered row without capacity utilisation is never listed. *)
Theorem low_capacity_missing_values :
  forall (f : list Row) (r : Row),
    (In r f /\ col.status r = None -> In r (low_capacity f))
    /\ (PrimFloat.is_nan (col.capacity_utilisation r) = true ->
        (In r (low_capacity f)
         <-> In r f /\ col.status r <> Some "Delivered"%string)).
Proof.
  intros f r. unfold low_capacity. split.
  - intros [Hr Hs]. apply filter_In. split; [exact Hr |].
    rewrite Hs. apply orb_true_r.
  - intro Hnan. rewrite filter_In. unfold pd.lt.
    rewrite (nan_below_nothing _ _ Hnan), orb_false_l, pd_ne_true.
    reflexivity.
Qed.

(** ** The views by count of values *)

Lemma place_perm (kn : text * nat) (l : list (text * nat)) :
  Permutation (pd.place kn l) (kn :: l).
Proof.
  induction l as [|kn' l IH]; simpl.
  - apply Permutation_refl.
  - destruct (snd kn' <? snd kn)%nat.
    + apply Permutation_refl.
    + eapply Permutation_trans; [apply perm_skip, IH | apply perm_swap].
Qed.

Lemma place_descending (kn : text * nat) (l : list (text * nat)) :
  StronglySorted count_ge l -> StronglySorted count_ge (pd.place kn l).
Proof.
  induction l as [|kn' l IH]; simpl; intro Hs.
  - repeat constructor.
  - inversion Hs as [|? ? Hs' Hall]; subst.
    destruct (snd kn' <? snd kn)%nat eqn:E.
    + apply Nat.ltb_lt in E. constructor; [exact Hs |].
      constructor; [unfold count_ge; lia |].
      eapply Forall_impl; [| exact Hall].
      unfold count_ge. intros q Hq. lia.
    + apply Nat.ltb_ge in E. constructor; [apply IH, Hs' |].
      apply Forall_forall. intros q Hq.
      apply (Permutation_in _ (place_perm kn l)) in Hq.
      destruct Hq as [<- | Hq]; [exact E |].
      rewrite Forall_forall in Hall. apply Hall, Hq.
Qed.

Lemma place_all (items acc : list (text * nat)) :
  Permutation (fold_left (fun l kn => pd.place kn l) items acc) (items ++ acc)
  /\ (StronglySorted count_ge acc ->
      StronglySorted count_ge (fold_left (fun l kn => pd.place kn l) items acc)).
Proof.
  revert acc. induction items as [|kn items IH]; intro acc; simpl.
  - split; [apply Permutation_refl | auto].
  - destruct (IH (pd.place kn acc)) as [Hp Hs]. split.
    + eapply Permutation_trans; [exact Hp |].
      eapply Permutation_trans;
        [apply Permutation_app_head, place_perm |].
      apply Permutation_sym, Permutation_middle.
    + intro Hacc. apply Hs, place_descending, Hacc.
Qed.

Lemma pd_same_sym (a b : text) : pd.same a b = pd.same b a.
Proof.
  destruct a as [x|], b as [y|]; simpl; try reflexivity.
  apply String.eqb_sym.
Qed.

Lemma value_counts_spec (key : Row -> text) (f : list Row) :
  let view := pd.value_counts (map key f) in
  StronglySorted count_ge view
  /\ NoDup (map fst view)
  /\ forall v n,
       In (v, n) view
       <-> exists x, v = Some x /\ n = rows_with key x f /\ (0 < n)%nat.
Proof.
  unfold pd.value_counts.
  set (values := filter (fun v : text => match v with
                                         | Some _ => true
                                         | None => false
                                         end)
                        (pd.unique pd.same (map key f))).
  set (items := map (fun v => (v, List.length (filter (pd.same v) (map key f))))
                    values).
  destruct (place_all items []) as [Hperm Hsorted].
  rewrite app_nil_r in Hperm.
  assert (Hcount : forall x,
             List.length (filter (pd.same (Some x)) (map key f))
             = rows_with key x f).
  { intro x. rewrite map_filter, length_map. unfold rows_with. f_equal.
    apply filter_ext. intro r. apply pd_same_sym. }
  assert (Hvalues : forall v,
             In v values <-> exists x, v = Some x /\ In (Some x) (map key f)).
  { intro v. unfold values.
    rewrite filter_In, (unique_In _ pd_same_true). split.
    - intros [Hin Hv]. destruct v as [x|]; [| discriminate]. eauto.
    - intros [x [-> Hin]]. auto. }
  cbv zeta. split; [| split].
  - apply Hsorted. constructor.
  - apply (Permutation_NoDup (Permutation_sym (Permutation_map fst Hperm))).
    unfold items. rewrite map_map. simpl. rewrite map_id.
    apply NoDup_filter, (unique_NoDup _ pd_same_true).
  - intros v n. split.
    + intro Hin. apply (Permutation_in _ Hperm) in Hin.
      unfold items in Hin. apply in_map_iff in Hin.
      destruct Hin as [v' [[= -> <-] Hv]].
      apply Hvalues in Hv. destruct Hv as [x [-> Hx]].
      exists x. rewrite Hcount. repeat split.
      unfold rows_with. apply in_map_iff in Hx. destruct Hx as [r [Hk Hr]].
      assert (Hin : In r (filter (fun r => pd.same (key r) (Some x)) f)).
      { apply filter_In. split; [exact Hr |]. rewrite Hk. apply pd_same_refl. }
      destruct (filter (fun r => pd.same (key r) (Some x)) f);
        [contradiction | simpl; lia].
    + intros [x [-> [-> Hpos]]].
      apply (Permutation_in _ (Permutation_sym Hperm)).
      unfold items. apply in_map_iff. exists (Some x). split.
      * rewrite Hcount. reflexivity.
      * apply Hvalues. exists x. split; [reflexivity |].
        unfold rows_with in Hpos.
        destruct (filter (fun r => pd.same (key r) (Some x)) f) as [|r l] eqn:E;
          [simpl in Hpos; lia |].
        assert (Hr : In r (filter (fun r => pd.same (key r) (Some x)) f))
          by (rewrite E; left; reflexivity).
        apply filter_In in Hr. destruct Hr as [Hr Hk].
        apply pd_same_true in Hk. rewrite <- Hk. apply in_map, Hr.
Qed.

(** X11. The trips-per-vehicle and the urgency views list each value of
    their column that occurs in the filtered table once, with the number of
    filtered rows holding it, by descending count; a row whose value is
    missing is counted in no line. *)
Theorem value_count_views :
  forall f : list Row,
    (StronglySorted count_ge (vehicle_df f)
     /\ NoDup (map fst (vehicle_df f))
     /\ forall v n,
          In (v, n) (vehicle_df f)
          <-> exists x, v = Some x /\ n = rows_with col.vehicle x f
                        /\ (0 < n)%nat)
    /\ (StronglySorted count_ge (urgency_df f)
        /\ NoDup (map fst (urgency_df f))
        /\ forall v n,
             In (v, n) (urgency_df f)
             <-> exists x, v = Some x /\ n = rows_with col.urgency_level x f
                           /\ (0 < n)%nat).
Proof.
  intro f. split.
  - exact (value_counts_spec col.vehicle f).
  - exact (value_counts_spec col.urgency_level f).
Qed.

(** ** Average capacity per branch *)

(** X12. The average-capacity-per-branch view has the branches of the
    trips-per-branch view, in the same order, and gives each branch the mean
    capacity utilisation of the filtered rows of that branch (NaN when none
    of them has one). *)
Theorem capacity_branch_df_lines :
  forall f : list Row,
    map fst (capacity_branch_df f) = map fst (trips_df f)
    /\ Forall (fun line : string * number =>
                 snd line
                 = pd.mean (map col.capacity_utilisation
                                (filter (fun r => pd.same (col.branch r)
                                                          (Some (fst line)))
                                        f)))
              (capacity_branch_df f).
Proof.
  intro f. unfold capacity_branch_df, pd.groupby_mean, trips_df.
  rewrite !map_map. simpl. split.
  - reflexivity.
  - apply Forall_forall. intros [b m] Hline. apply in_map_iff in Hline.
    destruct Hline as [[b' n] [[= <- <-] _]]. simpl.
    rewrite map_filter, map_map. simpl. f_equal. f_equal.
    apply filter_ext. intro r. destruct (col.branch r) as [x|]; simpl.
    + apply keqb_string.
    + reflexivity.
Qed.

(** ** The export *)

Lemma string_of_list_ascii_app (a b : list ascii) :
  string_of_list_ascii (a ++ b)
  = (string_of_list_ascii a ++ string_of_list_ascii b)%string.
Proof.
  induction a as [|c a IH]; simpl.
  - reflexivity.
  - rewrite IH. reflexivity.
Qed.

(** X13. Whatever the table, the export starts with the header line, the
    22 column names of the query in its order, and the export of an empty
    table is that line alone. *)
Theorem to_csv_starts_with_header :
  forall (float_str : float -> string) (date_str : list datetime -> Z -> string)
         (f : list Row),
    (exists body : string,
       to_csv float_str date_str f = (header_line ++ body)%string)
    /\ to_csv float_str date_str [] = header_line.
Proof.
  intros fs ds f. split; [| reflexivity].
  exists (string_of_list_ascii
            (csv.writerows (map (map list_ascii_of_string)
                                (map (cells fs ds f) f)))).
  unfold to_csv.
  change (csv.writerows
            (map (map list_ascii_of_string)
                 (projection :: map (cells fs ds f) f)))
    with (csv.writerow (map list_ascii_of_string projection)
          ++ csv.writerows (map (map list_ascii_of_string)
                                (map (cells fs ds f) f))).
  rewrite string_of_list_ascii_app. reflexivity.
Qed.

Lemma text_cell_missing_if_empty (c : text) :
  text_cell (missing_if_empty c) = text_cell c.
Proof. destruct c as [[|a s]|]; reflexivity. Qed.

(** X14. The export does not tell the empty text from a missing cell:
    making every empty text cell of a table missing leaves its export
    unchanged. *)
Theorem to_csv_conflates_empty_and_missing :
  forall (float_str : float -> string) (date_str : list datetime -> Z -> string)
         (f : list Row),
    to_csv float_str date_str (map without_empty_texts f)
    = to_csv float_str date_str f.
Proof.
  intros fs ds f. unfold to_csv. do 3 f_equal.
  rewrite map_map. f_equal. apply map_ext. intro r. unfold cells.
  rewrite !map_map. simpl.
  rewrite !text_cell_missing_if_empty. reflexivity.
Qed.

(** ** The status selection *)

Lemma filter_Subseq_impl {A} (p q : A -> bool) (l : list A) :
  (forall x, p x = true -> q x = true) ->
  Subseq (filter p l) (filter q l).
Proof.
  intro Hpq. induction l as [|x l IH]; simpl.
  - constructor.
  - destruct (p x) eqn:Ep.
    + rewrite (Hpq x Ep). apply Subseq_keep, IH.
    + destruct (q x); [apply Subseq_skip |]; exact IH.
Qed.

(** X15. Selecting more statuses never removes a row: when every status of
    one selection is in another, the filtered table of the first is the
    filtered table of the second with some rows left out, the order kept. *)
Theorem filtered_monotone_in_status :
  forall (df : list Row) (selected_region selected_week : text)
         (status status' : list text),
    incl status status' ->
    Subseq (filtered df selected_region status selected_week)
           (filtered df selected_region status' selected_week).
Proof.
  intros df g w st st' Hincl. unfold filtered. apply filter_Subseq_impl.
  intros r. unfold keep. rewrite !andb_true_iff, !pd_isin_In.
  intros [[Hg Hs] Hw]. auto.
Qed.

(** The statement above on a one-row table, from the selection of
    "Delivered" alone to the selection of two statuses. *)
Lemma filtered_monotone_in_status_witness :
  incl [Some "Delivered"%string] [Some "Delivered"%string; Some "Delayed"%string]
  /\ Subseq (filtered [sample] (Some "North"%string) [Some "Delivered"%string]
                      (Some "W1"%string))
            (filtered [sample] (Some "North"%string)
                      [Some "Delivered"%string; Some "Delayed"%string]
                      (Some "W1"%string)).
Proof.
  assert (H : incl [Some "Delivered"%string]
                   [Some "Delivered"%string; Some "Delayed"%string]).
  { intros c [<- | []]. left. reflexivity. }
  split; [exact H |].
  apply (filtered_monotone_in_status [sample] (Some "North"%string)
           (Some "W1"%string) [Some "Delivered"%string]
           [Some "Delivered"%string; Some "Delayed"%string] H).
Defined.

(** ** The views grouped on one column *)

(** X16. The trips-per-branch view lists the branches of the filtered rows
    in strictly ascending order, each once with the number of filtered rows
    of that branch; the deliveries-by-week view does the same for the week
    ranges. *)
Theorem one_key_views_count_values :
  forall f : list Row,
    (StronglySorted klt (map fst (trips_df f))
     /\ forall b n,
          In (b, n) (trips_df f)
          <-> n = rows_with col.branch b f /\ (0 < n)%nat)
    /\ (StronglySorted klt (map fst (week_df f))
        /\ forall w n,
             In (w, n) (week_df f)
             <-> n = rows_with col.week_range w f /\ (0 < n)%nat).
Proof.
  intro f. unfold trips_df, week_df. split; split;
    try apply groupby_size_sorted;
    intros k n; rewrite groupby_size_In, occurrences_rows_with; reflexivity.
Qed.
